(** * The configuration repository of [bluemix/configuration/core_config]

    A shallow embedding of [bx_config.go]: the typed document
    [BXConfigData] with its companion raw map, the lazily initialised
    repository [bxConfigRepository] built on a [Persistor], and the public
    getters and setters.

    Conventions of the embedding.
    - A Go [string] is a sequence of bytes: Rocq's [string].  [JStr s] is
      the JSON string that decodes to [s].  [encoding/json] writes valid
      UTF-8 unchanged and every other byte as U+FFFD ([to_valid_utf8]).
    - [map[string]interface{}] is a [gmap string json]; a nil map is [None].
    - Encoded documents are JSON values (type [json]); the lexical layer of
      [encoding/json] (bytes to values and back, indentation) is not part of
      the model, and JSON numbers are integer literals, the only numeric
      shape the typed schema holds.  The typed decoder reads a number into
      an [int]; the untyped one reads it into a [float64]
      ([round_to_float64]).
    - The repository is modelled sequentially: one operation at a time, as
      the reader/writer lock of the source serialises writers.  The fields
      [lock] and [onError] of the Go struct become, respectively, nothing
      and the list [handled] of the errors the handler has received; what
      the handler does with an error (the plugin shim's panics) is its
      own. *)

From stdpp Require Import gmap strings list fin_maps.
From Stdlib Require Import ZArith Lia Ascii.

Local Set Warnings "-register-all".
Local Open Scope string_scope.
Local Open Scope Z_scope.

(** A Go slice: [None] is the nil slice, [Some l] a slice holding [l]. *)
Definition slice (A : Type) : Type := option (list A).

Definition slice_items {A : Type} (s : slice A) : list A :=
  match s with
  | None => []
  | Some l => l
  end.

(** [append(s, x)]: the result is never nil. *)
Definition append {A : Type} (s : slice A) (x : A) : slice A :=
  Some (slice_items s ++ [x])%list.

(** ** Encoded values *)

Inductive json : Type :=
  | JNull
  | JBool (b : bool)
  | JNum (n : Z)
  | JStr (s : string)
  | JArr (items : list json)
  | JObj (members : list (string * json)).

(** The name [encoding/json] gives to the kind of a value in its errors. *)
Definition json_kind (j : json) : string :=
  match j with
  | JNull => "null"
  | JBool _ => "bool"
  | JNum _ => "number"
  | JStr _ => "string"
  | JArr _ => "array"
  | JObj _ => "object"
  end.

(** Go's [error] values that reach the repository. *)
Inductive error : Type :=
  | UnmarshalTypeError (value : string) (gotype : string)
  | PersistorError (msg : string).

(** ** Domain models

    Package [models] is not among the sources; its types are taken from
    the spec's data model. *)

Module models.

(** Modelled from the spec: [models.Account], "opaque structured value with
    at least a GUID". *)
Record Account : Type := mkAccount { Account_GUID : string }.

(** Modelled from the spec: [models.ResourceGroup], "opaque structured value
    with GUID + name". *)
Record ResourceGroup : Type := mkResourceGroup {
  ResourceGroup_GUID : string;
  ResourceGroup_Name : string
}.

(** Modelled from the spec: [models.PluginRepo], a registration "each: name,
    URL". *)
Record PluginRepo : Type := mkPluginRepo {
  PluginRepo_Name : string;
  PluginRepo_URL : string
}.

(** Modelled from the spec: [models.Region], "id, display name, type"; they
    are the three fields the method [Region] fills in and [SetRegion]
    reads. *)
Record Region : Type := mkRegion {
  Region_ID : string;
  Region_Name : string;
  Region_Type : string
}.

(** Go's zero values [models.Account{}], [models.ResourceGroup{}] and
    [models.PluginRepo{}]. *)
Definition Account_zero : Account := mkAccount "".
Definition ResourceGroup_zero : ResourceGroup := mkResourceGroup "" "".
Definition PluginRepo_zero : PluginRepo := mkPluginRepo "" "".

End models.

(** ** The typed document *)

Record BXConfigData : Type := mkBXConfigData {
  data_ConsoleEndpoint : string;
  data_Region : string;
  data_RegionID : string;
  data_RegionType : string;
  data_IAMEndpoint : string;
  data_IAMID : string;
  data_IAMToken : string;
  data_IAMRefreshToken : string;
  data_Account : models.Account;
  data_ResourceGroup : models.ResourceGroup;
  data_PluginRepos : slice models.PluginRepo;
  data_Locale : string;
  data_Trace : string;
  data_ColorEnabled : string;
  data_HTTPTimeout : Z;
  data_CLIInfoEndpoint : string;
  data_CheckCLIVersionDisabled : bool;
  data_UsageStatsDisabled : bool;
  data_raw : option (gmap string json)
}.

(** [NewBXConfigData]: every field zero, the raw map allocated and empty. *)
Definition NewBXConfigData : BXConfigData :=
  mkBXConfigData "" "" "" "" "" "" "" "" models.Account_zero models.ResourceGroup_zero None
                 "" "" "" 0 "" false false (Some ∅).

(** Assignments [data.F = v], one per field the source assigns. *)
Definition set_ConsoleEndpoint (v : string) (d : BXConfigData) : BXConfigData :=
  let '(mkBXConfigData _ a2 a3 a4 a5 a6 a7 a8 a9 a10 a11 a12 a13 a14 a15 a16 a17 a18 a19) := d in
  mkBXConfigData v a2 a3 a4 a5 a6 a7 a8 a9 a10 a11 a12 a13 a14 a15 a16 a17 a18 a19.
Definition set_Region (v : string) (d : BXConfigData) : BXConfigData :=
  let '(mkBXConfigData a1 _ a3 a4 a5 a6 a7 a8 a9 a10 a11 a12 a13 a14 a15 a16 a17 a18 a19) := d in
  mkBXConfigData a1 v a3 a4 a5 a6 a7 a8 a9 a10 a11 a12 a13 a14 a15 a16 a17 a18 a19.
Definition set_RegionID (v : string) (d : BXConfigData) : BXConfigData :=
  let '(mkBXConfigData a1 a2 _ a4 a5 a6 a7 a8 a9 a10 a11 a12 a13 a14 a15 a16 a17 a18 a19) := d in
  mkBXConfigData a1 a2 v a4 a5 a6 a7 a8 a9 a10 a11 a12 a13 a14 a15 a16 a17 a18 a19.
Definition set_RegionType (v : string) (d : BXConfigData) : BXConfigData :=
  let '(mkBXConfigData a1 a2 a3 _ a5 a6 a7 a8 a9 a10 a11 a12 a13 a14 a15 a16 a17 a18 a19) := d in
  mkBXConfigData a1 a2 a3 v a5 a6 a7 a8 a9 a10 a11 a12 a13 a14 a15 a16 a17 a18 a19.
Definition set_IAMEndpoint (v : string) (d : BXConfigData) : BXConfigData :=
  let '(mkBXConfigData a1 a2 a3 a4 _ a6 a7 a8 a9 a10 a11 a12 a13 a14 a15 a16 a17 a18 a19) := d in
  mkBXConfigData a1 a2 a3 a4 v a6 a7 a8 a9 a10 a11 a12 a13 a14 a15 a16 a17 a18 a19.
Definition set_IAMID (v : string) (d : BXConfigData) : BXConfigData :=
  let '(mkBXConfigData a1 a2 a3 a4 a5 _ a7 a8 a9 a10 a11 a12 a13 a14 a15 a16 a17 a18 a19) := d in
  mkBXConfigData a1 a2 a3 a4 a5 v a7 a8 a9 a10 a11 a12 a13 a14 a15 a16 a17 a18 a19.
Definition set_IAMToken (v : string) (d : BXConfigData) : BXConfigData :=
  let '(mkBXConfigData a1 a2 a3 a4 a5 a6 _ a8 a9 a10 a11 a12 a13 a14 a15 a16 a17 a18 a19) := d in
  mkBXConfigData a1 a2 a3 a4 a5 a6 v a8 a9 a10 a11 a12 a13 a14 a15 a16 a17 a18 a19.
Definition set_IAMRefreshToken (v : string) (d : BXConfigData) : BXConfigData :=
  let '(mkBXConfigData a1 a2 a3 a4 a5 a6 a7 _ a9 a10 a11 a12 a13 a14 a15 a16 a17 a18 a19) := d in
  mkBXConfigData a1 a2 a3 a4 a5 a6 a7 v a9 a10 a11 a12 a13 a14 a15 a16 a17 a18 a19.
Definition set_Account (v : models.Account) (d : BXConfigData) : BXConfigData :=
  let '(mkBXConfigData a1 a2 a3 a4 a5 a6 a7 a8 _ a10 a11 a12 a13 a14 a15 a16 a17 a18 a19) := d in
  mkBXConfigData a1 a2 a3 a4 a5 a6 a7 a8 v a10 a11 a12 a13 a14 a15 a16 a17 a18 a19.
Definition set_ResourceGroup (v : models.ResourceGroup) (d : BXConfigData) : BXConfigData :=
  let '(mkBXConfigData a1 a2 a3 a4 a5 a6 a7 a8 a9 _ a11 a12 a13 a14 a15 a16 a17 a18 a19) := d in
  mkBXConfigData a1 a2 a3 a4 a5 a6 a7 a8 a9 v a11 a12 a13 a14 a15 a16 a17 a18 a19.
Definition set_PluginRepos (v : slice models.PluginRepo) (d : BXConfigData) : BXConfigData :=
  let '(mkBXConfigData a1 a2 a3 a4 a5 a6 a7 a8 a9 a10 _ a12 a13 a14 a15 a16 a17 a18 a19) := d in
  mkBXConfigData a1 a2 a3 a4 a5 a6 a7 a8 a9 a10 v a12 a13 a14 a15 a16 a17 a18 a19.
Definition set_Locale (v : string) (d : BXConfigData) : BXConfigData :=
  let '(mkBXConfigData a1 a2 a3 a4 a5 a6 a7 a8 a9 a10 a11 _ a13 a14 a15 a16 a17 a18 a19) := d in
  mkBXConfigData a1 a2 a3 a4 a5 a6 a7 a8 a9 a10 a11 v a13 a14 a15 a16 a17 a18 a19.
Definition set_Trace (v : string) (d : BXConfigData) : BXConfigData :=
  let '(mkBXConfigData a1 a2 a3 a4 a5 a6 a7 a8 a9 a10 a11 a12 _ a14 a15 a16 a17 a18 a19) := d in
  mkBXConfigData a1 a2 a3 a4 a5 a6 a7 a8 a9 a10 a11 a12 v a14 a15 a16 a17 a18 a19.
Definition set_ColorEnabled (v : string) (d : BXConfigData) : BXConfigData :=
  let '(mkBXConfigData a1 a2 a3 a4 a5 a6 a7 a8 a9 a10 a11 a12 a13 _ a15 a16 a17 a18 a19) := d in
  mkBXConfigData a1 a2 a3 a4 a5 a6 a7 a8 a9 a10 a11 a12 a13 v a15 a16 a17 a18 a19.
Definition set_HTTPTimeout (v : Z) (d : BXConfigData) : BXConfigData :=
  let '(mkBXConfigData a1 a2 a3 a4 a5 a6 a7 a8 a9 a10 a11 a12 a13 a14 _ a16 a17 a18 a19) := d in
  mkBXConfigData a1 a2 a3 a4 a5 a6 a7 a8 a9 a10 a11 a12 a13 a14 v a16 a17 a18 a19.
Definition set_CLIInfoEndpoint (v : string) (d : BXConfigData) : BXConfigData :=
  let '(mkBXConfigData a1 a2 a3 a4 a5 a6 a7 a8 a9 a10 a11 a12 a13 a14 a15 _ a17 a18 a19) := d in
  mkBXConfigData a1 a2 a3 a4 a5 a6 a7 a8 a9 a10 a11 a12 a13 a14 a15 v a17 a18 a19.
Definition set_CheckCLIVersionDisabled (v : bool) (d : BXConfigData) : BXConfigData :=
  let '(mkBXConfigData a1 a2 a3 a4 a5 a6 a7 a8 a9 a10 a11 a12 a13 a14 a15 a16 _ a18 a19) := d in
  mkBXConfigData a1 a2 a3 a4 a5 a6 a7 a8 a9 a10 a11 a12 a13 a14 a15 a16 v a18 a19.
Definition set_UsageStatsDisabled (v : bool) (d : BXConfigData) : BXConfigData :=
  let '(mkBXConfigData a1 a2 a3 a4 a5 a6 a7 a8 a9 a10 a11 a12 a13 a14 a15 a16 a17 _ a19) := d in
  mkBXConfigData a1 a2 a3 a4 a5 a6 a7 a8 a9 a10 a11 a12 a13 a14 a15 a16 a17 v a19.
Definition set_raw (v : option (gmap string json)) (d : BXConfigData) : BXConfigData :=
  let '(mkBXConfigData a1 a2 a3 a4 a5 a6 a7 a8 a9 a10 a11 a12 a13 a14 a15 a16 a17 a18 _) := d in
  mkBXConfigData a1 a2 a3 a4 a5 a6 a7 a8 a9 a10 a11 a12 a13 a14 a15 a16 a17 a18 v.

(** ** Strings on their way into JSON

    [encoding/json] writes a string as UTF-8: every byte that does not
    begin a well-formed UTF-8 sequence is written as U+FFFD. *)

Definition in_range (lo hi : nat) (b : ascii) : bool :=
  (lo <=? nat_of_ascii b)%nat && (nat_of_ascii b <=? hi)%nat.

(** [utf8.DecodeRuneInString] on a non-empty string, as far as the encoder
    reads it: the number of bytes of the well-formed sequence at the head of
    [s], and 0 when there is none (the rune error of width 1). *)
Definition rune_size (s : string) : nat :=
  match s with
  | EmptyString => 0%nat
  | String b0 rest =>
      let second lo hi :=
        match rest with
        | String b1 _ => in_range lo hi b1
        | _ => false
        end in
      let third :=
        match rest with
        | String _ (String b2 _) => in_range 128 191 b2
        | _ => false
        end in
      let fourth :=
        match rest with
        | String _ (String _ (String b3 _)) => in_range 128 191 b3
        | _ => false
        end in
      if in_range 0 127 b0 then 1%nat
      else if in_range 194 223 b0 then
        if second 128%nat 191%nat then 2%nat else 0%nat
      else if in_range 224 224 b0 then
        if second 160%nat 191%nat && third then 3%nat else 0%nat
      else if in_range 225 236 b0 || in_range 238 239 b0 then
        if second 128%nat 191%nat && third then 3%nat else 0%nat
      else if in_range 237 237 b0 then
        if second 128%nat 159%nat && third then 3%nat else 0%nat
      else if in_range 240 240 b0 then
        if second 144%nat 191%nat && third && fourth then 4%nat else 0%nat
      else if in_range 241 243 b0 then
        if second 128%nat 191%nat && third && fourth then 4%nat else 0%nat
      else if in_range 244 244 b0 then
        if second 128%nat 143%nat && third && fourth then 4%nat else 0%nat
      else 0%nat
  end.

(** U+FFFD in UTF-8. *)
Definition replacement : string := String "239" (String "191" (String "189" "")).

(** The string the encoder writes for [s]; [inside] counts the bytes still
    to copy of the sequence being copied. *)
Fixpoint coerce (s : string) (inside : nat) : string :=
  match s with
  | EmptyString => EmptyString
  | String b rest =>
      match inside with
      | S k => String b (coerce rest k)
      | O =>
          match rune_size s with
          | O => replacement ++ coerce rest 0
          | S k => String b (coerce rest k)
          end
      end
  end.

Definition to_valid_utf8 (s : string) : string := coerce s 0.



(** ** Encoding: [json.MarshalIndent] on the typed document

    Exported fields only, in declaration order, under their Go names (the
    struct has no tags); the unexported [raw] is left out. *)

Definition Account_members (a : models.Account) : list (string * json) :=
  [("GUID", JStr (models.Account_GUID a))].

Definition ResourceGroup_members (g : models.ResourceGroup) : list (string * json) :=
  [("GUID", JStr (models.ResourceGroup_GUID g)); ("Name", JStr (models.ResourceGroup_Name g))].

Definition PluginRepo_members (r : models.PluginRepo) : list (string * json) :=
  [("Name", JStr (models.PluginRepo_Name r)); ("URL", JStr (models.PluginRepo_URL r))].

(** A nil slice encodes as [null], any other slice as an array. *)
Definition PluginRepos_json (s : slice models.PluginRepo) : json :=
  match s with
  | None => JNull
  | Some l => JArr (map (fun r => JObj (PluginRepo_members r)) l)
  end.

Definition document_members (d : BXConfigData) : list (string * json) :=
  [ ("ConsoleEndpoint", JStr (data_ConsoleEndpoint d));
    ("Region", JStr (data_Region d));
    ("RegionID", JStr (data_RegionID d));
    ("RegionType", JStr (data_RegionType d));
    ("IAMEndpoint", JStr (data_IAMEndpoint d));
    ("IAMID", JStr (data_IAMID d));
    ("IAMToken", JStr (data_IAMToken d));
    ("IAMRefreshToken", JStr (data_IAMRefreshToken d));
    ("Account", JObj (Account_members (data_Account d)));
    ("ResourceGroup", JObj (ResourceGroup_members (data_ResourceGroup d)));
    ("PluginRepos", PluginRepos_json (data_PluginRepos d));
    ("Locale", JStr (data_Locale d));
    ("Trace", JStr (data_Trace d));
    ("ColorEnabled", JStr (data_ColorEnabled d));
    ("HTTPTimeout", JNum (data_HTTPTimeout d));
    ("CLIInfoEndpoint", JStr (data_CLIInfoEndpoint d));
    ("CheckCLIVersionDisabled", JBool (data_CheckCLIVersionDisabled d));
    ("UsageStatsDisabled", JBool (data_UsageStatsDisabled d)) ].

(** The keys of the typed schema. *)
Definition known_keys : list string := map fst (document_members NewBXConfigData).

(** The typed fields as the encoder writes them: the strings in UTF-8. *)
Definition encoded_PluginRepo (r : models.PluginRepo) : models.PluginRepo :=
  models.mkPluginRepo (to_valid_utf8 (models.PluginRepo_Name r))
                      (to_valid_utf8 (models.PluginRepo_URL r)).

Definition encoded_PluginRepos (s : slice models.PluginRepo) : slice models.PluginRepo :=
  match s with
  | None => None
  | Some l => Some (map encoded_PluginRepo l)
  end.

Definition encoded_document (d : BXConfigData) : BXConfigData :=
  mkBXConfigData
    (to_valid_utf8 (data_ConsoleEndpoint d))
    (to_valid_utf8 (data_Region d))
    (to_valid_utf8 (data_RegionID d))
    (to_valid_utf8 (data_RegionType d))
    (to_valid_utf8 (data_IAMEndpoint d))
    (to_valid_utf8 (data_IAMID d))
    (to_valid_utf8 (data_IAMToken d))
    (to_valid_utf8 (data_IAMRefreshToken d))
    (models.mkAccount (to_valid_utf8 (models.Account_GUID (data_Account d))))
    (models.mkResourceGroup
       (to_valid_utf8 (models.ResourceGroup_GUID (data_ResourceGroup d)))
       (to_valid_utf8 (models.ResourceGroup_Name (data_ResourceGroup d))))
    (encoded_PluginRepos (data_PluginRepos d))
    (to_valid_utf8 (data_Locale d))
    (to_valid_utf8 (data_Trace d))
    (to_valid_utf8 (data_ColorEnabled d))
    (data_HTTPTimeout d)
    (to_valid_utf8 (data_CLIInfoEndpoint d))
    (data_CheckCLIVersionDisabled d)
    (data_UsageStatsDisabled d)
    (data_raw d).

(** [(data *BXConfigData) Marshal]; the encoder cannot fail on these field
    types, so the [error] of the Go signature is always nil. *)
Definition Marshal (d : BXConfigData) : json :=
  JObj (document_members (encoded_document d)).

(** The encoder writes the keys of a Go map in increasing order, byte by
    byte. *)
Fixpoint insert_member (kv : string * json) (l : list (string * json))
    : list (string * json) :=
  match l with
  | [] => [kv]
  | kv' :: rest =>
      if String.leb kv.1 kv'.1 then kv :: l else kv' :: insert_member kv rest
  end.

Definition sorted_members (l : list (string * json)) : list (string * json) :=
  fold_right insert_member [] l.

(** A value of the raw map as the encoder writes it. *)
Fixpoint encode_value (j : json) : json :=
  match j with
  | JStr s => JStr (to_valid_utf8 s)
  | JArr items => JArr (map encode_value items)
  | JObj members =>
      JObj (map (fun kv => (to_valid_utf8 kv.1, kv.2))
              (sorted_members (map (fun kv => let '(k, v) := kv in (k, encode_value v))
                                   members)))
  | _ => j
  end.

(** [(r raw) Marshal]: a nil map encodes as [null]. *)
Definition raw_Marshal (r : option (gmap string json)) : json :=
  match r with
  | None => JNull
  | Some m => encode_value (JObj (map_to_list m))
  end.

(** [structs.Map(c.data)] (package [fatih/structs]): one key per exported
    field, nested structs turned into maps in the same way. *)
Definition structs_Map (d : BXConfigData) : gmap string json :=
  list_to_map (document_members d).

(** ** Decoding: [json.Unmarshal] *)

(** A decoder stores a JSON value into a Go value of type [T] and reports a
    type mismatch; on a mismatch the Go value keeps what it held. *)
Definition decoder (T : Type) : Type := json -> T -> T * option error.

(** [encoding/json] remembers the earliest type error and goes on. *)
Definition first_error (e1 e2 : option error) : option error :=
  match e1 with
  | Some _ => e1
  | None => e2
  end.

Definition decode_string : decoder string := fun j old =>
  match j with
  | JStr s => (s, None)
  | JNull => (old, None)
  | _ => (old, Some (UnmarshalTypeError (json_kind j) "string"))
  end.

Definition decode_bool : decoder bool := fun j old =>
  match j with
  | JBool b => (b, None)
  | JNull => (old, None)
  | _ => (old, Some (UnmarshalTypeError (json_kind j) "bool"))
  end.

(** Go's [int] on a 64-bit platform. *)
Definition int_min : Z := - 2 ^ 63.
Definition int_max : Z := 2 ^ 63 - 1.
Definition is_int (n : Z) : bool := (int_min <=? n) && (n <=? int_max).

Definition decode_int : decoder Z := fun j old =>
  match j with
  | JNum n => if is_int n then (n, None)
              else (old, Some (UnmarshalTypeError "number" "int"))
  | JNull => (old, None)
  | _ => (old, Some (UnmarshalTypeError (json_kind j) "int"))
  end.

(** The decoder of a struct field, from the decoder of the field's type. *)
Definition field_of {T F : Type} (get : T -> F) (set : F -> T -> T)
    (dec : decoder F) : decoder T := fun j t =>
  let '(v, e) := dec j (get t) in (set v t, e).

(** Elements of a JSON array go into the slots of the old slice while it has
    some, and into zero values after that. *)
Fixpoint decode_items {T : Type} (zero : T) (dec : decoder T)
    (items : list json) (old : list T) : list T * option error :=
  match items with
  | [] => ([], None)
  | j :: items' =>
      let '(x, e) := dec j (match old with x :: _ => x | [] => zero end) in
      let '(xs, es) := decode_items zero dec items' (tl old) in
      (x :: xs, first_error e es)
  end.

Definition decode_slice {T : Type} (gotype : string) (zero : T)
    (dec : decoder T) : decoder (slice T) := fun j old =>
  match j with
  | JArr items =>
      let '(l, e) := decode_items zero dec items (slice_items old) in (Some l, e)
  | JNull => (None, None)
  | _ => (old, Some (UnmarshalTypeError (json_kind j) gotype))
  end.

(** *** Numbers and objects as Go values

    [json.Unmarshal] into [interface{}] stores a number as a [float64] and
    an object as a [map[string]interface{}]. *)

(** The [float64] nearest to the integer [n], ties to even, as
    [strconv.ParseFloat] finds it; [None] when it is out of range. *)
Definition round_to_float64 (n : Z) : option Z :=
  let a := Z.abs n in
  if a <? 2 ^ 53 then Some n
  else
    let e := Z.log2 a - 52 in
    let q := a / 2 ^ e in
    let r := a mod 2 ^ e in
    let half := 2 ^ (e - 1) in
    let q' := if (half <? r) || ((r =? half) && Z.odd q) then q + 1 else q in
    let v := q' * 2 ^ e in
    if 2 ^ 1024 <=? v then None else Some (Z.sgn n * v).

(** [m[k] = v] on the entries of a Go map, kept in the order the keys
    first came. *)
Fixpoint put (k : string) (v : json) (entries : list (string * json))
    : list (string * json) :=
  match entries with
  | [] => [(k, v)]
  | (k', v') :: rest =>
      if String.eqb k' k then (k', v) :: rest else (k', v') :: put k v rest
  end.

Fixpoint convert_items (convert : json -> json * option error) (items : list json)
    : list json * option error :=
  match items with
  | [] => ([], None)
  | j :: rest =>
      let '(v, e) := convert j in
      let '(vs, es) := convert_items convert rest in
      (v :: vs, first_error e es)
  end.

Fixpoint convert_members (convert : json -> json * option error)
    (members entries : list (string * json)) : list (string * json) * option error :=
  match members with
  | [] => (entries, None)
  | (k, j) :: rest =>
      let '(v, e) := convert j in
      let '(all, es) := convert_members convert rest (put k v entries) in
      (all, first_error e es)
  end.

(** The Go value [json.Unmarshal] stores into an [interface{}] for a JSON
    value.  A number out of the range of [float64] is reported and stored
    as nil; the decoder goes on. *)
Fixpoint interface_of (j : json) : json * option error :=
  match j with
  | JNum n =>
      match round_to_float64 n with
      | Some v => (JNum v, None)
      | None => (JNull, Some (UnmarshalTypeError "number" "float64"))
      end
  | JArr items =>
      let '(vs, e) := convert_items interface_of items in (JArr vs, e)
  | JObj members =>
      let '(entries, e) := convert_members interface_of members [] in (JObj entries, e)
  | _ => (j, None)
  end.

(** The members of the top-level object, stored one after the other into
    the raw map. *)
Fixpoint raw_members (members : list (string * json)) (m : gmap string json)
    (e : option error) : gmap string json * option error :=
  match members with
  | [] => (m, e)
  | (k, j) :: rest =>
      let '(v, e') := interface_of j in
      raw_members rest (<[k := v]> m) (first_error e e')
  end.

Section Decoding.

(** [strings.EqualFold] and [strings.ToLower] rest on Go's Unicode tables;
    the development is parametric in them. *)
Context (EqualFold : string -> string -> bool).

(** The field a key of a JSON object goes to: the field of that exact
    name, else the first one that matches under case folding. *)
Fixpoint find_field {T : Type} (fields : list (string * decoder T))
    (key : string) (f : option (decoder T)) : option (decoder T) :=
  match fields with
  | [] => f
  | (name, dec) :: rest =>
      if String.eqb name key then Some dec
      else find_field rest key
             (match f with
              | None => if EqualFold name key then Some dec else None
              | Some _ => f
              end)
  end.

(** The members of an object are stored one after the other; a key that
    matches no field is skipped. *)
Fixpoint decode_members {T : Type} (fields : list (string * decoder T))
    (members : list (string * json)) (t : T) (e : option error)
    : T * option error :=
  match members with
  | [] => (t, e)
  | (key, v) :: rest =>
      match find_field fields key None with
      | Some dec =>
          let '(t', e') := dec v t in
          decode_members fields rest t' (first_error e e')
      | None => decode_members fields rest t e
      end
  end.

Definition decode_struct {T : Type} (gotype : string)
    (fields : list (string * decoder T)) : decoder T := fun j t =>
  match j with
  | JObj members => decode_members fields members t None
  | JNull => (t, None)
  | _ => (t, Some (UnmarshalTypeError (json_kind j) gotype))
  end.

Definition Account_fields : list (string * decoder models.Account) :=
  [("GUID", field_of models.Account_GUID (fun v _ => models.mkAccount v) decode_string)].

Definition ResourceGroup_fields : list (string * decoder models.ResourceGroup) :=
  [("GUID", field_of models.ResourceGroup_GUID
              (fun v g => models.mkResourceGroup v (models.ResourceGroup_Name g)) decode_string);
   ("Name", field_of models.ResourceGroup_Name
              (fun v g => models.mkResourceGroup (models.ResourceGroup_GUID g) v) decode_string)].

Definition PluginRepo_fields : list (string * decoder models.PluginRepo) :=
  [("Name", field_of models.PluginRepo_Name
              (fun v r => models.mkPluginRepo v (models.PluginRepo_URL r)) decode_string);
   ("URL", field_of models.PluginRepo_URL
              (fun v r => models.mkPluginRepo (models.PluginRepo_Name r) v) decode_string)].

Definition decode_Account : decoder models.Account :=
  decode_struct "models.Account" Account_fields.

Definition decode_ResourceGroup : decoder models.ResourceGroup :=
  decode_struct "models.ResourceGroup" ResourceGroup_fields.

Definition decode_PluginRepo : decoder models.PluginRepo :=
  decode_struct "models.PluginRepo" PluginRepo_fields.

Definition decode_PluginRepos : decoder (slice models.PluginRepo) :=
  decode_slice "[]models.PluginRepo" models.PluginRepo_zero decode_PluginRepo.

Definition BXConfigData_fields : list (string * decoder BXConfigData) :=
  [ ("ConsoleEndpoint", field_of data_ConsoleEndpoint set_ConsoleEndpoint decode_string);
    ("Region", field_of data_Region set_Region decode_string);
    ("RegionID", field_of data_RegionID set_RegionID decode_string);
    ("RegionType", field_of data_RegionType set_RegionType decode_string);
    ("IAMEndpoint", field_of data_IAMEndpoint set_IAMEndpoint decode_string);
    ("IAMID", field_of data_IAMID set_IAMID decode_string);
    ("IAMToken", field_of data_IAMToken set_IAMToken decode_string);
    ("IAMRefreshToken", field_of data_IAMRefreshToken set_IAMRefreshToken decode_string);
    ("Account", field_of data_Account set_Account decode_Account);
    ("ResourceGroup", field_of data_ResourceGroup set_ResourceGroup decode_ResourceGroup);
    ("PluginRepos", field_of data_PluginRepos set_PluginRepos decode_PluginRepos);
    ("Locale", field_of data_Locale set_Locale decode_string);
    ("Trace", field_of data_Trace set_Trace decode_string);
    ("ColorEnabled", field_of data_ColorEnabled set_ColorEnabled decode_string);
    ("HTTPTimeout", field_of data_HTTPTimeout set_HTTPTimeout decode_int);
    ("CLIInfoEndpoint", field_of data_CLIInfoEndpoint set_CLIInfoEndpoint decode_string);
    ("CheckCLIVersionDisabled",
       field_of data_CheckCLIVersionDisabled set_CheckCLIVersionDisabled decode_bool);
    ("UsageStatsDisabled",
       field_of data_UsageStatsDisabled set_UsageStatsDisabled decode_bool) ].

(** [json.Unmarshal(bytes, data)] with [data *BXConfigData]. *)
Definition json_Unmarshal_data : decoder BXConfigData :=
  decode_struct "core_config.BXConfigData" BXConfigData_fields.

(** [json.Unmarshal(bytes, &raw)] with [raw] a nil map: an object fills a
    new map member by member (a repeated key keeps its last value),
    [null] leaves the map nil. *)
Definition json_Unmarshal_raw (j : json) : option (gmap string json) * option error :=
  match j with
  | JObj members =>
      let '(m, e) := raw_members members ∅ None in (Some m, e)
  | JNull => (None, None)
  | _ => (None, Some (UnmarshalTypeError (json_kind j) "core_config.raw"))
  end.

(** [(data *BXConfigData) Unmarshal]. *)
Definition Unmarshal (bytes : json) (d : BXConfigData) : BXConfigData * option error :=
  let '(d1, err) := json_Unmarshal_data bytes d in
  match err with
  | Some e => (d1, Some e)
  | None =>
      let '(raw, err') := json_Unmarshal_raw bytes in
      match err' with
      | Some e => (d1, Some e)
      | None => (set_raw raw d1, None)
      end
  end.

End Decoding.

(** ** Package [strings] *)

(** [strings.Split(s, sep)] for a separator of one byte, as the source
    calls it: the pieces of [s] between the occurrences of [sep]. *)
Fixpoint Split (s : string) (sep : ascii) : list string :=
  match s with
  | EmptyString => [""]
  | String c rest =>
      if Ascii.eqb c sep then "" :: Split rest sep
      else match Split rest sep with
           | piece :: pieces => String c piece :: pieces
           | [] => [String c ""]
           end
  end.

(** [strings.HasPrefix(s, prefix)]. *)
Fixpoint HasPrefix (s prefix : string) {struct prefix} : bool :=
  match prefix, s with
  | EmptyString, _ => true
  | String p prefix', String c s' => Ascii.eqb c p && HasPrefix s' prefix'
  | String _ _, EmptyString => false
  end.

(** ** The persistor *)

(** What the repository hands to its persistor: the typed document
    ([c.data]) or the raw map ([c.data.raw]); both can marshal
    themselves. *)
Inductive DataInterface : Type :=
  | DocumentData (d : BXConfigData)
  | RawData (r : option (gmap string json)).

(** Modelled from the spec: the interface [configuration.Persistor]
    (package [configuration] is not among the sources), "[Load(dest) ->
    error], [Save(src) -> error]".  [P] is the persistor's own state (the
    file, for the disk persistor); [Load] may change the destination. *)
Class Persistor (P : Type) : Type := {
  Load : P -> BXConfigData -> P * BXConfigData * option error;
  Save : P -> DataInterface -> P * option error
}.

(** The calls a repository has made to its persistor. *)
Inductive call : Type :=
  | LoadCall
  | SaveCall (src : DataInterface).

Definition is_load (c : call) : bool :=
  match c with
  | LoadCall => true
  | SaveCall _ => false
  end.

(** ** The repository *)

Record bxConfigRepository (P : Type) : Type := mkRepository {
  data : BXConfigData;
  persistor : P;
  initOnce : bool;        (* whether [initOnce.Do] has run its function *)
  handled : list error;   (* the errors [onError] was called with, oldest first *)
  calls : list call       (* the persistor calls made, oldest first *)
}.
Arguments mkRepository {P}.
Arguments data {P}.
Arguments persistor {P}.
Arguments initOnce {P}.
Arguments handled {P}.
Arguments calls {P}.

(** A call either returns or panics, leaving the repository as it was when
    the panic was raised. *)
Inductive outcome (A : Type) : Type :=
  | Returned (a : A)
  | Panicked (msg : string) (a : A).
Arguments Returned {A}.
Arguments Panicked {A}.

Definition state_of {A : Type} (o : outcome A) : A :=
  match o with
  | Returned a => a
  | Panicked _ a => a
  end.

(** [c.onError(err)] when [err != nil]. *)
Definition report (err : option error) (hs : list error) : list error :=
  match err with
  | Some e => (hs ++ [e])%list
  | None => hs
  end.

Section Repository.

Context {P : Type} `{Persistor P}.

Definition createBluemixConfigFromPersistor (p : P) : bxConfigRepository P :=
  mkRepository NewBXConfigData p false [] [].

Definition init (c : bxConfigRepository P) : bxConfigRepository P :=
  if initOnce c then c
  else
    let '(p, d, err) := Load (persistor c) (data c) in
    mkRepository d p true (report err (handled c)) (calls c ++ [LoadCall])%list.

Definition read {A : Type} (cb : BXConfigData -> A) (c : bxConfigRepository P)
    : A * bxConfigRepository P :=
  let c := init c in
  (cb (data c), c).

Definition write (cb : BXConfigData -> BXConfigData) (c : bxConfigRepository P)
    : bxConfigRepository P :=
  let c := init c in
  let d := cb (data c) in
  let d := set_raw (Some (structs_Map d)) d in
  let '(p, err) := Save (persistor c) (DocumentData d) in
  mkRepository d p (initOnce c) (report err (handled c))
               (calls c ++ [SaveCall (DocumentData d)])%list.

Definition writeRaw (cb : BXConfigData -> outcome BXConfigData)
    (c : bxConfigRepository P) : outcome (bxConfigRepository P) :=
  let c := init c in
  match cb (data c) with
  | Panicked msg d =>
      Panicked msg (mkRepository d (persistor c) (initOnce c) (handled c) (calls c))
  | Returned d =>
      let '(p, err) := Save (persistor c) (RawData (data_raw d)) in
      Returned (mkRepository d p (initOnce c) (report err (handled c))
                             (calls c ++ [SaveCall (RawData (data_raw d))])%list)
  end.

(** [c.data.raw[key] = JStr v]; assigning into a nil map panics. *)
Definition raw_assign (key v : string) (d : BXConfigData) : outcome BXConfigData :=
  match data_raw d with
  | Some m => Returned (set_raw (Some (<[key := JStr v]> m)) d)
  | None => Panicked "assignment to entry in nil map" d
  end.

(** *** Getters *)

Definition ConsoleEndpoint := read data_ConsoleEndpoint.

Definition Region :=
  read (fun d => models.mkRegion (data_RegionID d) (data_Region d) (data_RegionType d)).

Definition cloud_name_of (regionID : string) : string :=
  if String.eqb regionID "" then ""
  else
    match Split regionID ":"%char with
    | [customer; deployment; _] =>
        if negb (String.eqb customer "ibm") then customer
        else if String.eqb deployment "yp" then "bluemix"
        else if HasPrefix deployment "ys" then "staging"
        else ""
    | _ => ""
    end.

Definition CloudName (c : bxConfigRepository P) : string * bxConfigRepository P :=
  let '(region, c) := Region c in
  (cloud_name_of (models.Region_ID region), c).

Definition CloudType (c : bxConfigRepository P) : string * bxConfigRepository P :=
  let '(region, c) := Region c in
  (models.Region_Type region, c).

Definition IAMEndpoint := read data_IAMEndpoint.
Definition IAMToken := read data_IAMToken.
Definition IAMRefreshToken := read data_IAMRefreshToken.
Definition Account := read data_Account.

Definition HasAccount (c : bxConfigRepository P) : bool * bxConfigRepository P :=
  let '(account, c) := Account c in
  (negb (String.eqb (models.Account_GUID account) ""), c).

Definition ResourceGroup := read data_ResourceGroup.

Definition HasResourceGroup :=
  read (fun d =>
          negb (String.eqb (models.ResourceGroup_GUID (data_ResourceGroup d)) "")
          && negb (String.eqb (models.ResourceGroup_Name (data_ResourceGroup d)) "")).

Definition PluginRepos := read data_PluginRepos.
Definition Locale := read data_Locale.
Definition Trace := read data_Trace.
Definition ColorEnabled := read data_ColorEnabled.
Definition HTTPTimeout := read data_HTTPTimeout.
Definition CLIInfoEndpoint := read data_CLIInfoEndpoint.
Definition CheckCLIVersionDisabled := read data_CheckCLIVersionDisabled.
Definition UsageStatsDisabled := read data_UsageStatsDisabled.

(** *** Setters *)

Definition SetConsoleEndpoint (endpoint : string) := write (set_ConsoleEndpoint endpoint).

Definition SetRegion (region : models.Region) :=
  write (fun d =>
           let d := set_Region (models.Region_Name region) d in
           let d := set_RegionID (models.Region_ID region) d in
           set_RegionType (models.Region_Type region) d).

Definition SetIAMEndpoint (endpoint : string) := write (set_IAMEndpoint endpoint).

Definition SetIAMToken (token : string) :=
  writeRaw (fun d =>
              let d := set_IAMToken token d in
              raw_assign "IAMToken" token d).

Definition SetIAMRefreshToken (token : string) :=
  writeRaw (fun d =>
              let d := set_IAMRefreshToken token d in
              raw_assign "IAMRefreshToken" token d).

Definition SetAccount (account : models.Account) := write (set_Account account).
Definition SetResourceGroup (group : models.ResourceGroup) := write (set_ResourceGroup group).

Definition SetPluginRepo (pluginRepo : models.PluginRepo) :=
  write (fun d => set_PluginRepos (append (data_PluginRepos d) pluginRepo) d).

Definition SetHTTPTimeout (timeout : Z) := write (set_HTTPTimeout timeout).
Definition SetCheckCLIVersionDisabled (disabled : bool) :=
  write (set_CheckCLIVersionDisabled disabled).
Definition SetCLIInfoEndpoint (endpoint : string) := write (set_CLIInfoEndpoint endpoint).
Definition SetUsageStatsDisabled (disabled : bool) := write (set_UsageStatsDisabled disabled).
Definition SetColorEnabled (enabled : string) := write (set_ColorEnabled enabled).
Definition SetLocale (locale : string) := write (set_Locale locale).
Definition SetTrace (trace : string) := write (set_Trace trace).

Definition ClearSession :=
  write (fun d =>
           let d := set_IAMToken "" d in
           let d := set_IAMRefreshToken "" d in
           let d := set_Account models.Account_zero d in
           set_ResourceGroup models.ResourceGroup_zero d).

Definition ClearAPICache :=
  write (fun d =>
           let d := set_Region "" d in
           let d := set_RegionID "" d in
           let d := set_ConsoleEndpoint "" d in
           set_IAMEndpoint "" d).

(** *** The methods that compare names *)

Section Names.

Context (EqualFold : string -> string -> bool) (ToLower : string -> string).

(** The loop of [PluginRepo] over the slice [PluginRepos] returned. *)
Fixpoint lookup_repo (name : string) (repos : list models.PluginRepo)
    : models.PluginRepo * bool :=
  match repos with
  | [] => (models.PluginRepo_zero, false)
  | r :: rest =>
      if EqualFold (models.PluginRepo_Name r) name then (r, true)
      else lookup_repo name rest
  end.

Definition PluginRepo (name : string) (c : bxConfigRepository P)
    : (models.PluginRepo * bool) * bxConfigRepository P :=
  let '(repos, c) := PluginRepos c in
  (lookup_repo name (slice_items repos), c).

(** The loop of [UnSetPluginRepo]: the value of [i] when it ends. *)
Fixpoint index_repo (repoName : string) (repos : list models.PluginRepo) : nat :=
  match repos with
  | [] => 0%nat
  | r :: rest =>
      if String.eqb (ToLower (models.PluginRepo_Name r)) (ToLower repoName) then 0%nat
      else S (index_repo repoName rest)
  end.

Definition UnSetPluginRepo (repoName : string) :=
  write (fun d =>
           let repos := slice_items (data_PluginRepos d) in
           let i := index_repo repoName repos in
           if negb (Nat.eqb i (length repos))
           then set_PluginRepos (Some (take i repos ++ drop (S i) repos)%list) d
           else d).

End Names.

End Repository.

(** *** The methods that decode the access token

    [NewIAMTokenInfo] lives in a file of the package that is not among the
    sources; the two getters built on it take it as a parameter. *)

(** What the two getters read of the decoded token: [.IAMID] and
    [.Accounts.IMSAccountID]. *)
Record IAMTokenInfo : Type := mkIAMTokenInfo {
  IAMTokenInfo_IAMID : string;
  IAMTokenInfo_IMSAccountID : string
}.

Section TokenInfo.

Context {P : Type} `{Persistor P}.
Context (NewIAMTokenInfo : string -> IAMTokenInfo).

Definition IAMID (c : bxConfigRepository P) : string * bxConfigRepository P :=
  let '(token, c) := IAMToken c in
  (IAMTokenInfo_IAMID (NewIAMTokenInfo token), c).

Definition IMSAccountID (c : bxConfigRepository P) : string * bxConfigRepository P :=
  let '(token, c) := IAMToken c in
  (IAMTokenInfo_IMSAccountID (NewIAMTokenInfo token), c).

End TokenInfo.

(** ** Sequences of calls

    The public methods as data, to speak of everything a caller can do. *)

Inductive getter : Type :=
  | GetConsoleEndpoint | GetRegion | GetCloudName | GetCloudType
  | GetIAMEndpoint | GetIAMID | GetIAMToken | GetIAMRefreshToken
  | GetAccount | GetHasAccount | GetIMSAccountID
  | GetResourceGroup | GetHasResourceGroup
  | GetPluginRepos | GetPluginRepo (name : string)
  | GetLocale | GetTrace | GetColorEnabled | GetHTTPTimeout
  | GetCLIInfoEndpoint | GetCheckCLIVersionDisabled | GetUsageStatsDisabled.

(** The setters that go through [write]. *)
Inductive full_setter : Type :=
  | DoSetConsoleEndpoint (endpoint : string)
  | DoSetRegion (region : models.Region)
  | DoSetIAMEndpoint (endpoint : string)
  | DoSetAccount (account : models.Account)
  | DoSetResourceGroup (group : models.ResourceGroup)
  | DoSetPluginRepo (pluginRepo : models.PluginRepo)
  | DoUnSetPluginRepo (repoName : string)
  | DoSetHTTPTimeout (timeout : Z)
  | DoSetCheckCLIVersionDisabled (disabled : bool)
  | DoSetCLIInfoEndpoint (endpoint : string)
  | DoSetUsageStatsDisabled (disabled : bool)
  | DoSetColorEnabled (enabled : string)
  | DoSetLocale (locale : string)
  | DoSetTrace (trace : string)
  | DoClearSession
  | DoClearAPICache.

(** The setters that go through [writeRaw]. *)
Inductive token_setter : Type :=
  | DoSetIAMToken (token : string)
  | DoSetIAMRefreshToken (token : string).

Inductive operation : Type :=
  | Get (g : getter)
  | FullSet (w : full_setter)
  | TokenSet (t : token_setter).

Section Calls.

Context {P : Type} `{Persistor P}.
Context (EqualFold : string -> string -> bool) (ToLower : string -> string).
Context (NewIAMTokenInfo : string -> IAMTokenInfo).

(** The repository a getter leaves behind (its result dropped). *)
Definition run_getter (g : getter) (c : bxConfigRepository P) : bxConfigRepository P :=
  match g with
  | GetConsoleEndpoint => (ConsoleEndpoint c).2
  | GetRegion => (Region c).2
  | GetCloudName => (CloudName c).2
  | GetCloudType => (CloudType c).2
  | GetIAMEndpoint => (IAMEndpoint c).2
  | GetIAMID => (IAMID NewIAMTokenInfo c).2
  | GetIAMToken => (IAMToken c).2
  | GetIAMRefreshToken => (IAMRefreshToken c).2
  | GetAccount => (Account c).2
  | GetHasAccount => (HasAccount c).2
  | GetIMSAccountID => (IMSAccountID NewIAMTokenInfo c).2
  | GetResourceGroup => (ResourceGroup c).2
  | GetHasResourceGroup => (HasResourceGroup c).2
  | GetPluginRepos => (PluginRepos c).2
  | GetPluginRepo name => (PluginRepo EqualFold name c).2
  | GetLocale => (Locale c).2
  | GetTrace => (Trace c).2
  | GetColorEnabled => (ColorEnabled c).2
  | GetHTTPTimeout => (HTTPTimeout c).2
  | GetCLIInfoEndpoint => (CLIInfoEndpoint c).2
  | GetCheckCLIVersionDisabled => (CheckCLIVersionDisabled c).2
  | GetUsageStatsDisabled => (UsageStatsDisabled c).2
  end.

Definition run_full_setter (w : full_setter) : bxConfigRepository P -> bxConfigRepository P :=
  match w with
  | DoSetConsoleEndpoint endpoint => SetConsoleEndpoint endpoint
  | DoSetRegion region => SetRegion region
  | DoSetIAMEndpoint endpoint => SetIAMEndpoint endpoint
  | DoSetAccount account => SetAccount account
  | DoSetResourceGroup group => SetResourceGroup group
  | DoSetPluginRepo pluginRepo => SetPluginRepo pluginRepo
  | DoUnSetPluginRepo repoName => UnSetPluginRepo ToLower repoName
  | DoSetHTTPTimeout timeout => SetHTTPTimeout timeout
  | DoSetCheckCLIVersionDisabled disabled => SetCheckCLIVersionDisabled disabled
  | DoSetCLIInfoEndpoint endpoint => SetCLIInfoEndpoint endpoint
  | DoSetUsageStatsDisabled disabled => SetUsageStatsDisabled disabled
  | DoSetColorEnabled enabled => SetColorEnabled enabled
  | DoSetLocale locale => SetLocale locale
  | DoSetTrace trace => SetTrace trace
  | DoClearSession => ClearSession
  | DoClearAPICache => ClearAPICache
  end.

Definition run_token_setter (t : token_setter)
    : bxConfigRepository P -> outcome (bxConfigRepository P) :=
  match t with
  | DoSetIAMToken token => SetIAMToken token
  | DoSetIAMRefreshToken token => SetIAMRefreshToken token
  end.

Definition exec (op : operation) (c : bxConfigRepository P)
    : outcome (bxConfigRepository P) :=
  match op with
  | Get g => Returned (run_getter g c)
  | FullSet w => Returned (run_full_setter w c)
  | TokenSet t => run_token_setter t c
  end.

(** Calls made one after the other; a panic ends the sequence. *)
Fixpoint run (ops : list operation) (c : bxConfigRepository P)
    : outcome (bxConfigRepository P) :=
  match ops with
  | [] => Returned c
  | op :: ops' =>
      match exec op c with
      | Returned c' => run ops' c'
      | Panicked msg c' => Panicked msg c'
      end
  end.

End Calls.

(** The number of [Load] calls a repository has made. *)
Definition loads (cs : list call) : nat := length (filter (fun c => is_load c = true) cs).

(** ** Stand-ins for what lies outside the package *)

Module Double.

(** Case folding restricted to the ASCII letters. *)
Definition lower_byte (b : ascii) : ascii :=
  let n := nat_of_ascii b in
  if (65 <=? n)%nat && (n <=? 90)%nat then ascii_of_nat (n + 32) else b.

Fixpoint ToLower (s : string) : string :=
  match s with
  | EmptyString => EmptyString
  | String b rest => String (lower_byte b) (ToLower rest)
  end.

Definition EqualFold (s t : string) : bool := String.eqb (ToLower s) (ToLower t).

Definition NewIAMTokenInfo (token : string) : IAMTokenInfo := mkIAMTokenInfo token "".

(** Modelled from the spec: "a test double may hold data in memory".  The
    double keeps the encoded document last saved, and fails on demand. *)
Record Memory : Type := mkMemory {
  stored : option json;
  load_fails : option error;
  save_fails : option error
}.

Definition marshal (src : DataInterface) : json :=
  match src with
  | DocumentData d => Marshal d
  | RawData r => raw_Marshal r
  end.

#[global] Instance Memory_Persistor : Persistor Memory := {
  Load p d :=
    match load_fails p, stored p with
    | Some e, _ => (p, d, Some e)
    | None, None => (p, d, Some (PersistorError "no such file"))
    | None, Some bytes =>
        let '(d', err) := Unmarshal EqualFold bytes d in (p, d', err)
    end;
  Save p src :=
    match save_fails p with
    | Some e => (p, Some e)
    | None => (mkMemory (Some (marshal src)) (load_fails p) None, None)
    end
}.

End Double.

(** ** Notions used to state the properties *)

(** How many times the byte [b] occurs in [s]. *)
Fixpoint count_byte (b : ascii) (s : string) : nat :=
  match s with
  | EmptyString => 0%nat
  | String c rest => ((if Ascii.eqb c b then 1 else 0) + count_byte b rest)%nat
  end.

(** The value the raw map of a document holds under a key, if any. *)
Definition raw_value (d : BXConfigData) (k : string) : option json :=
  match data_raw d with
  | Some m => m !! k
  | None => None
  end.






Section Reached.

Context {P : Type} `{Persistor P}.

(** A call leaves the one-time gate closed, and adds to what the lazy load
    left only errors handed to the handler and calls that are not loads. *)
Definition after_init (c c' : bxConfigRepository P) : Prop :=
  initOnce c' = true /\
  exists hs cs,
    handled c' = (handled (init c) ++ hs)%list /\
    calls c' = (calls (init c) ++ cs)%list /\
    loads cs = 0%nat.

End Reached.

(** ** Sample inputs *)

Module Sample.

(** A configuration file written by a newer version of the program: it
    has a key the typed schema does not know. *)
Definition file : json :=
  JObj [("IAMToken", JStr "old"); ("Region", JStr "us-south");
        ("FutureSetting", JNum 7)].

Definition repository : bxConfigRepository Double.Memory :=
  createBluemixConfigFromPersistor (Double.mkMemory (Some file) None None).

Definition disk_full : error := PersistorError "disk full".

(** A repository over a persistor whose [Save] always fails. *)
Definition read_only : bxConfigRepository Double.Memory :=
  createBluemixConfigFromPersistor (Double.mkMemory (Some file) None (Some disk_full)).

(** A persistor whose [Load] fails. *)
Definition unreadable : Double.Memory :=
  Double.mkMemory None (Some (PersistorError "permission denied")) None.

Definition public_region : models.Region :=
  models.mkRegion "ibm:yp:us-south" "us-south" "public".


Definition foo : models.PluginRepo := models.mkPluginRepo "foo" "https://one".
Definition FOO : models.PluginRepo := models.mkPluginRepo "FOO" "https://two".

End Sample.

(** ** Notions used to state further properties *)

Definition is_save (c : call) : bool := negb (is_load c).

(** The number of [Save] calls a repository has made. *)
Definition saves (cs : list call) : nat := length (filter (fun c => is_save c = true) cs).

Definition is_setter (op : operation) : bool :=
  match op with
  | Get _ => false
  | FullSet _ => true
  | TokenSet _ => true
  end.

(** The number of setter calls in a sequence of calls. *)
Definition setters (ops : list operation) : nat :=
  length (filter (fun op => is_setter op = true) ops).

(** The first value an association list gives to a key. *)
Fixpoint assoc (k : string) (l : list (string * json)) : option json :=
  match l with
  | [] => None
  | (k', v) :: rest => if String.eqb k' k then Some v else assoc k rest
  end.

(** The encoded value of the typed field of a document that is stored
    under a key of the schema. *)
Definition typed_value (d : BXConfigData) (k : string) : option json :=
  structs_Map d !! k.

(** The raw map has, under every key of the schema, the value of the typed
    field. *)
Definition in_step (d : BXConfigData) : Prop :=
  forall k v, typed_value d k = Some v -> raw_value d k = Some v.

(** The keys of the fields the callback of a setter assigns. *)
Definition assigned_keys (w : full_setter) : list string :=
  match w with
  | DoSetConsoleEndpoint _ => ["ConsoleEndpoint"]
  | DoSetRegion _ => ["Region"; "RegionID"; "RegionType"]
  | DoSetIAMEndpoint _ => ["IAMEndpoint"]
  | DoSetAccount _ => ["Account"]
  | DoSetResourceGroup _ => ["ResourceGroup"]
  | DoSetPluginRepo _ => ["PluginRepos"]
  | DoUnSetPluginRepo _ => ["PluginRepos"]
  | DoSetHTTPTimeout _ => ["HTTPTimeout"]
  | DoSetCheckCLIVersionDisabled _ => ["CheckCLIVersionDisabled"]
  | DoSetCLIInfoEndpoint _ => ["CLIInfoEndpoint"]
  | DoSetUsageStatsDisabled _ => ["UsageStatsDisabled"]
  | DoSetColorEnabled _ => ["ColorEnabled"]
  | DoSetLocale _ => ["Locale"]
  | DoSetTrace _ => ["Trace"]
  | DoClearSession => ["IAMToken"; "IAMRefreshToken"; "Account"; "ResourceGroup"]
  | DoClearAPICache => ["Region"; "RegionID"; "ConsoleEndpoint"; "IAMEndpoint"]
  end.

Definition token_key (t : token_setter) : string :=
  match t with
  | DoSetIAMToken _ => "IAMToken"
  | DoSetIAMRefreshToken _ => "IAMRefreshToken"
  end.

Definition token_of (t : token_setter) : string :=
  match t with
  | DoSetIAMToken token => token
  | DoSetIAMRefreshToken token => token
  end.

(** ** Package [downloader]: the name of the downloaded file

    [determinOutputName] and the two functions it calls, on what they read
    of the response: the value of the [Content-Disposition] header (empty
    when the header is absent) and the path of the request's URL. *)

(** The double quote, the one byte of the cutset of [strings.Trim] in
    [getFileNameFromHeader]. *)
Definition quote : ascii := "034"%char.

Fixpoint contains_byte (cutset : string) (b : ascii) : bool :=
  match cutset with
  | EmptyString => false
  | String c rest => Ascii.eqb c b || contains_byte rest b
  end.

(** [strings.TrimLeft(s, cutset)] for a cutset of ASCII bytes: the leading
    bytes of [s] that are in the cutset are dropped. *)
Fixpoint TrimLeft (s cutset : string) {struct s} : string :=
  match s with
  | EmptyString => EmptyString
  | String b rest => if contains_byte cutset b then TrimLeft rest cutset else s
  end.

(** [strings.TrimRight(s, cutset)] for a cutset of ASCII bytes. *)
Fixpoint TrimRight (s cutset : string) {struct s} : string :=
  match s with
  | EmptyString => EmptyString
  | String b rest =>
      match TrimRight rest cutset with
      | EmptyString => if contains_byte cutset b then EmptyString else String b EmptyString
      | kept => String b kept
      end
  end.

(** [strings.Trim(s, cutset)] for a cutset of ASCII bytes. *)
Definition Trim (s cutset : string) : string := TrimLeft (TrimRight s cutset) cutset.

Section Downloader.

(** [strings.TrimSpace] rests on Go's Unicode tables and [path.Clean] is
    the standard library's; the functions are parametric in them. *)
Context (TrimSpace : string -> string) (Clean : string -> string).

(** The loop of [getFileNameFromHeader] over the fields of the header. *)
Fixpoint file_name_of_fields (fields : list string) : string :=
  match fields with
  | [] => ""
  | field :: rest =>
      let field := TrimSpace field in
      if HasPrefix field "filename=" then
        let name := TrimLeft field "filename=" in
        Trim name (String quote EmptyString)
      else file_name_of_fields rest
  end.

Definition getFileNameFromHeader (header : string) : string :=
  if String.eqb header "" then ""
  else file_name_of_fields (Split header ";").

(** [getFileNameFromUrl], on [url.Path]. *)
Definition getFileNameFromUrl (urlPath : string) : string :=
  let path := Clean urlPath in
  if String.eqb path "." then ""
  else
    let fields := Split path "/" in
    if Nat.eqb (length fields) 0 then ""
    else List.last fields "".

(** [determinOutputName], on [resp.Header.Get("Content-Disposition")] and
    [resp.Request.URL.Path]. *)
Definition determinOutputName (contentDisposition urlPath : string) : string :=
  let n := getFileNameFromHeader contentDisposition in
  let n := if String.eqb n "" then getFileNameFromUrl urlPath else n in
  let n := if String.eqb n "" then "index.html" else n in
  n.

End Downloader.

(** The first and the last byte of a string. *)
Definition first_byte (s : string) : option ascii :=
  match s with
  | EmptyString => None
  | String b _ => Some b
  end.

Fixpoint last_byte (s : string) : option ascii :=
  match s with
  | EmptyString => None
  | String b EmptyString => Some b
  | String _ rest => last_byte rest
  end.

(** ** More stand-ins and sample inputs *)

Module Plain.

(** [strings.TrimSpace] restricted to the ASCII white space. *)
Definition white_space : string :=
  String "009" (String "010" (String "011" (String "012" (String "013" " ")))).

Definition TrimSpace (s : string) : string := Trim s white_space.

Fixpoint join (sep : string) (pieces : list string) : string :=
  match pieces with
  | [] => ""
  | [piece] => piece
  | piece :: rest => piece ++ sep ++ join sep rest
  end.

(** The elements of a cleaned path, last one first: empty and "." elements
    are dropped, ".." removes the element before it (nothing, at the root;
    itself kept, where there is none to remove). *)
Fixpoint clean_elements (rooted : bool) (elements kept : list string) : list string :=
  match elements with
  | [] => kept
  | element :: rest =>
      if String.eqb element "" || String.eqb element "." then
        clean_elements rooted rest kept
      else if String.eqb element ".." then
        match kept with
        | top :: below =>
            if String.eqb top ".." then clean_elements rooted rest (element :: kept)
            else clean_elements rooted rest below
        | [] =>
            if rooted then clean_elements rooted rest []
            else clean_elements rooted rest [element]
        end
      else clean_elements rooted rest (element :: kept)
  end.

(** [path.Clean], element by element. *)
Definition Clean (path : string) : string :=
  let rooted := HasPrefix path "/" in
  let body := join "/" (rev (clean_elements rooted (Split path "/") [])) in
  let cleaned := if rooted then "/" ++ body else body in
  if String.eqb cleaned "" then "." else cleaned.

End Plain.

Module Cases.

(** A file whose content is [null]. *)
Definition null_repository : bxConfigRepository Double.Memory :=
  createBluemixConfigFromPersistor (Double.mkMemory (Some JNull) None None).

(** A file with a time-out that is not a number. *)
Definition bad_timeout : json :=
  JObj [("Locale", JStr "de_DE"); ("HTTPTimeout", JStr "soon")].

(** Two registrations whose names differ by case only. *)
Definition two_foos : bxConfigRepository Double.Memory :=
  SetPluginRepo Sample.FOO (SetPluginRepo Sample.foo Sample.repository).

Definition calls_made : list operation :=
  [Get GetLocale; TokenSet (DoSetIAMToken "t"); FullSet (DoSetLocale "fr_FR");
   Get GetIAMToken].

(** [attachment; filename="email.txt"] and [attachment; filename=email.txt]. *)
Definition quoted_header : string :=
  "attachment; filename=" ++ String quote ("email.txt" ++ String quote "").

Definition unquoted_header : string := "attachment; filename=email.txt".


(** A file with a key outside the schema whose number is 10^400. *)
Definition huge_number : json := JObj [("FutureSetting", JNum (10 ^ 400))].



End Cases.

(** * Properties *)

(** ** Package [strings] *)

Lemma Split_nonempty s sep : Split s sep <> [].
Proof.
  destruct s as [|c s]; simpl; [discriminate|].
  destruct (Ascii.eqb c sep); [discriminate|].
  destruct (Split s sep); discriminate.
Qed.

Lemma length_Split s sep : length (Split s sep) = S (count_byte sep s).
Proof.
  induction s as [|c s IH]; simpl; [reflexivity|].
  destruct (Ascii.eqb c sep); simpl.
  - by rewrite IH.
  - pose proof (Split_nonempty s sep).
    destruct (Split s sep); [done|]. simpl in *. lia.
Qed.

Lemma Split_piece s sep rest :
  count_byte sep s = 0%nat -> Split (s ++ String sep rest) sep = s :: Split rest sep.
Proof.
  induction s as [|c s IH]; simpl.
  - intros _. by rewrite Ascii.eqb_refl.
  - destruct (Ascii.eqb c sep); [discriminate|]. simpl. intros Hc.
    by rewrite IH.
Qed.

Lemma Split_last s sep : count_byte sep s = 0%nat -> Split s sep = [s].
Proof.
  induction s as [|c s IH]; simpl; [done|].
  destruct (Ascii.eqb c sep); [discriminate|]. simpl. intros Hc.
  by rewrite IH.
Qed.

Lemma HasPrefix_spec s p : HasPrefix s p = true <-> exists rest, s = p ++ rest.
Proof.
  revert s. induction p as [|b p IH]; intros s; simpl.
  - split; [intros _; exists s; reflexivity | reflexivity].
  - destruct s as [|c s].
    + split; [discriminate | intros [r Hr]; discriminate].
    + rewrite andb_true_iff, IH. split.
      * intros [Hb [r ->]]. apply Ascii.eqb_eq in Hb as ->. by exists r.
      * intros [r Hr]. injection Hr as -> ->. split; [apply Ascii.eqb_refl | by exists r].
Qed.

(** ** [CloudName] *)

Section CloudNameProofs.
Context {P : Type} `{Persistor P}.

Lemma cloud_name_of_segments customer deployment location :
  count_byte ":" customer = 0%nat ->
  count_byte ":" deployment = 0%nat ->
  count_byte ":" location = 0%nat ->
  cloud_name_of (customer ++ ":" ++ deployment ++ ":" ++ location) =
    if negb (String.eqb customer "ibm") then customer
    else if String.eqb deployment "yp" then "bluemix"
    else if HasPrefix deployment "ys" then "staging"
    else "".
Proof.
  intros Hc Hd Hl. unfold cloud_name_of.
  replace (String.eqb (customer ++ ":" ++ deployment ++ ":" ++ location) "") with false
    by (symmetry; apply String.eqb_neq; destruct customer; discriminate).
  change (":" ++ deployment ++ ":" ++ location)
    with (String ":" (deployment ++ String ":" location)).
  rewrite (Split_piece customer) by done.
  rewrite (Split_piece deployment) by done.
  rewrite (Split_last location) by done.
  reflexivity.
Qed.

Lemma cloud_name_of_other regionID :
  count_byte ":" regionID <> 2%nat -> cloud_name_of regionID = "".
Proof.
  intros Hn. unfold cloud_name_of.
  destruct (String.eqb regionID ""); [done|].
  pose proof (length_Split regionID ":") as Hlen.
  destruct (Split regionID ":") as [|a [|b [|x [|y l]]]]; try done.
  simpl in Hlen. lia.
Qed.

(** C6: [CloudName] classifies the region id by its colon-separated
    segments: empty for an empty id or one that does not have exactly three
    segments; the first segment when it is not "ibm"; for "ibm", "bluemix"
    on the deployment "yp", "staging" on a deployment that starts with
    "ys", empty otherwise; and the six rows of the table. *)
Theorem CloudName_classification (c : bxConfigRepository P) :
  let regionID := data_RegionID (data (init c)) in
  let name := (CloudName c).1 in
  name = cloud_name_of regionID /\
  (regionID = "" -> name = "") /\
  (count_byte ":" regionID <> 2%nat -> name = "") /\
  (forall customer deployment location,
      regionID = customer ++ ":" ++ deployment ++ ":" ++ location ->
      count_byte ":" customer = 0%nat ->
      count_byte ":" deployment = 0%nat ->
      count_byte ":" location = 0%nat ->
      (customer <> "ibm" -> name = customer) /\
      (customer = "ibm" -> deployment = "yp" -> name = "bluemix") /\
      (customer = "ibm" -> (exists rest, deployment = "ys" ++ rest) ->
         name = "staging") /\
      (customer = "ibm" -> deployment <> "yp" ->
         ~ (exists rest, deployment = "ys" ++ rest) -> name = "")) /\
  cloud_name_of "ibm:yp:us-south" = "bluemix" /\
  cloud_name_of "ibm:ys1:eu-gb" = "staging" /\
  cloud_name_of "ibm:prod:us-south" = "" /\
  cloud_name_of "softlayer:yp:dal" = "softlayer" /\
  cloud_name_of "" = "" /\
  cloud_name_of "a:b" = "".
Proof.
  intros regionID name.
  assert (Hname : name = cloud_name_of regionID) by reflexivity.
  split; [exact Hname|]. rewrite Hname. clear Hname name.
  split; [intros ->; reflexivity|].
  split; [apply cloud_name_of_other|].
  split; [|repeat split; reflexivity].
  intros customer deployment location -> Hc Hd Hl.
  rewrite cloud_name_of_segments by done.
  repeat split.
  - intros Hne. apply String.eqb_neq in Hne. rewrite Hne. simpl. reflexivity.
  - intros -> ->. reflexivity.
  - intros -> [rest ->]. reflexivity.
  - intros -> Hyp Hys.
    apply String.eqb_neq in Hyp. rewrite Hyp.
    destruct (HasPrefix deployment "ys") eqn:Hp; [|reflexivity].
    apply HasPrefix_spec in Hp. contradiction.
Qed.
End CloudNameProofs.

Local Open Scope list_scope.

(** ** The document *)

Lemma data_raw_set_raw r d : data_raw (set_raw r d) = r.
Proof. by destruct d. Qed.



Lemma data_raw_set_IAMToken v d : data_raw (set_IAMToken v d) = data_raw d.
Proof. by destruct d. Qed.

Lemma data_raw_set_IAMRefreshToken v d : data_raw (set_IAMRefreshToken v d) = data_raw d.
Proof. by destruct d. Qed.

Lemma document_members_set_raw r d : document_members (set_raw r d) = document_members d.
Proof. by destruct d. Qed.

Lemma structs_Map_set_raw r d : structs_Map (set_raw r d) = structs_Map d.
Proof. unfold structs_Map. by rewrite document_members_set_raw. Qed.

Lemma document_keys d : (document_members d).*1 = known_keys.
Proof. reflexivity. Qed.

Lemma known_keys_NoDup : NoDup known_keys.
Proof. apply (bool_decide_unpack _). vm_compute. reflexivity. Qed.

Lemma structs_Map_known d k v :
  In (k, v) (document_members d) -> structs_Map d !! k = Some v.
Proof.
  intros Hin. unfold structs_Map. apply elem_of_list_to_map.
  - rewrite document_keys. apply known_keys_NoDup.
  - by apply list_elem_of_In.
Qed.

Lemma structs_Map_unknown d k : ~ In k known_keys -> structs_Map d !! k = None.
Proof.
  intros Hk. unfold structs_Map. apply not_elem_of_list_to_map.
  rewrite document_keys. by rewrite list_elem_of_In.
Qed.

(** ** Strings and numbers of the encoding *)







(** ** Go values *)




Lemma existsb_app_false {A : Type} (f : A -> bool) l1 l2 :
  existsb f l1 = false -> existsb f l2 = false -> existsb f (l1 ++ l2) = false.
Proof. intros H1 H2. by rewrite existsb_app, H1, H2. Qed.




(** ** Encoding and decoding *)


Lemma raw_members_error members m e :
  (raw_members members m e).2 = None ->
  e = None /\ forall k v, In (k, v) members -> (interface_of v).2 = None.
Proof.
  revert m e. induction members as [|[k v] rest IH]; intros m e; cbn [raw_members].
  - intros He. split; [done|]. intros ? ? [].
  - destruct (interface_of v) as [v' e'] eqn:Hv. intros Hrest.
    apply IH in Hrest as [He Hrest]. destruct e as [e0|]; [discriminate|].
    cbn in He. subst e'. split; [done|].
    intros k1 v1 [[= <- <-]|Hin]; [by rewrite Hv|by eapply Hrest].
Qed.




Section RoundTrip.
Context (EqualFold : string -> string -> bool).






Local Arguments is_int : simpl never.
Local Arguments decode_Account : simpl never.
Local Arguments decode_ResourceGroup : simpl never.
Local Arguments decode_PluginRepos : simpl never.



Lemma data_raw_encoded D : data_raw (encoded_document D) = data_raw D.
Proof. reflexivity. Qed.







End RoundTrip.


(** ** The repository *)

Section RepositoryProofs.
Context {P : Type} `{Persistor P}.
Implicit Types c : bxConfigRepository P.

Lemma initOnce_init c : initOnce (init c) = true.
Proof.
  unfold init. destruct (initOnce c) eqn:Hc; [done|].
  by destruct (Load (persistor c) (data c)) as [[p d] err].
Qed.

Lemma init_done c : initOnce c = true -> init c = c.
Proof. intros Hc. unfold init. by rewrite Hc. Qed.

Lemma init_init c : init (init c) = init c.
Proof. apply init_done, initOnce_init. Qed.

Lemma read_eq {A} (cb : BXConfigData -> A) c : read cb c = (cb (data (init c)), init c).
Proof. reflexivity. Qed.

(** What [write] leaves behind. *)
Lemma write_eq cb c :
  let c0 := init c in
  let d := set_raw (Some (structs_Map (cb (data c0)))) (cb (data c0)) in
  write cb c =
    mkRepository d (Save (persistor c0) (DocumentData d)).1 true
                 (report (Save (persistor c0) (DocumentData d)).2 (handled c0))
                 (calls c0 ++ [SaveCall (DocumentData d)]).
Proof.
  intros c0 d. unfold write. fold c0. fold d.
  destruct (Save (persistor c0) (DocumentData d)) as [p err]. simpl.
  unfold c0. by rewrite initOnce_init.
Qed.

Lemma data_write cb c :
  data (write cb c) =
    set_raw (Some (structs_Map (cb (data (init c))))) (cb (data (init c))).
Proof. by rewrite write_eq. Qed.

Lemma initOnce_write cb c : initOnce (write cb c) = true.
Proof. by rewrite write_eq. Qed.

(** What [writeRaw] leaves behind when its callback returns. *)
Lemma writeRaw_eq cb c d :
  let c0 := init c in
  cb (data c0) = Returned d ->
  writeRaw cb c =
    Returned (mkRepository d (Save (persistor c0) (RawData (data_raw d))).1 true
                (report (Save (persistor c0) (RawData (data_raw d))).2 (handled c0))
                (calls c0 ++ [SaveCall (RawData (data_raw d))])).
Proof.
  intros c0 Hcb. unfold writeRaw. fold c0. rewrite Hcb.
  destruct (Save (persistor c0) (RawData (data_raw d))) as [p err]. simpl.
  unfold c0. by rewrite initOnce_init.
Qed.

Lemma run_full_setter_write ToLower w :
  exists cb, forall c, run_full_setter (P:=P) ToLower w c = write cb c.
Proof. destruct w; eexists; intros c; reflexivity. Qed.

(** C2: after any setter that goes through [write] (all but the two token
    setters; [ClearSession] and [ClearAPICache] included) the raw map is
    [structs.Map] of the document the setter left: each key of the typed
    schema holds the current value of its field, and a key outside the
    schema is absent, whatever the raw map held before. *)
Theorem full_write_regenerates_raw (ToLower : string -> string) (w : full_setter) c :
  let c' := run_full_setter ToLower w c in
  data_raw (data c') = Some (structs_Map (data c')) /\
  (forall k v, In (k, v) (document_members (data c')) -> raw_value (data c') k = Some v) /\
  (forall k, ~ In k known_keys -> raw_value (data c') k = None).
Proof.
  destruct (run_full_setter_write ToLower w) as [cb Hcb].
  intros c'. unfold c'. rewrite Hcb, data_write.
  set (d := cb (data (init c))).
  assert (Hraw : data_raw (set_raw (Some (structs_Map d)) d)
                 = Some (structs_Map (set_raw (Some (structs_Map d)) d))).
  { by rewrite data_raw_set_raw, structs_Map_set_raw. }
  split; [exact Hraw|]. unfold raw_value. rewrite Hraw.
  split; [apply structs_Map_known | apply structs_Map_unknown].
Qed.

(** *** The token setters *)

Lemma raw_value_insert_eq d (m : gmap string json) k v :
  raw_value (set_raw (Some (<[k := v]> m)) d) k = Some v.
Proof. unfold raw_value. by rewrite data_raw_set_raw, lookup_insert_eq. Qed.

Lemma raw_value_insert_ne d d0 (m : gmap string json) k k' v :
  data_raw d0 = Some m -> k <> k' ->
  raw_value (set_raw (Some (<[k := v]> m)) d) k' = raw_value d0 k'.
Proof.
  intros Hm Hne. unfold raw_value.
  by rewrite data_raw_set_raw, Hm, lookup_insert_ne.
Qed.

Lemma SetIAMToken_eq c m token :
  data_raw (data (init c)) = Some m ->
  let d := set_raw (Some (<["IAMToken" := JStr token]> m))
                   (set_IAMToken token (data (init c))) in
  SetIAMToken token c =
    Returned (mkRepository d (Save (persistor (init c)) (RawData (data_raw d))).1 true
                (report (Save (persistor (init c)) (RawData (data_raw d))).2
                        (handled (init c)))
                (calls (init c) ++ [SaveCall (RawData (data_raw d))])).
Proof.
  intros Hm d. unfold SetIAMToken. apply writeRaw_eq.
  unfold raw_assign. by rewrite data_raw_set_IAMToken, Hm.
Qed.

Lemma SetIAMRefreshToken_eq c m token :
  data_raw (data (init c)) = Some m ->
  let d := set_raw (Some (<["IAMRefreshToken" := JStr token]> m))
                   (set_IAMRefreshToken token (data (init c))) in
  SetIAMRefreshToken token c =
    Returned (mkRepository d (Save (persistor (init c)) (RawData (data_raw d))).1 true
                (report (Save (persistor (init c)) (RawData (data_raw d))).2
                        (handled (init c)))
                (calls (init c) ++ [SaveCall (RawData (data_raw d))])).
Proof.
  intros Hm d. unfold SetIAMRefreshToken. apply writeRaw_eq.
  unfold raw_assign. by rewrite data_raw_set_IAMRefreshToken, Hm.
Qed.

Lemma data_IAMToken_set d r v : data_IAMToken (set_raw r (set_IAMToken v d)) = v.
Proof. by destruct d. Qed.

Lemma data_IAMRefreshToken_set d r v :
  data_IAMRefreshToken (set_raw r (set_IAMRefreshToken v d)) = v.
Proof. by destruct d. Qed.

(** One raw-preserving write, from a repository whose raw map is not nil
    once loaded. *)
Lemma SetIAMToken_step c token :
  data_raw (data (init c)) <> None ->
  exists c1,
    SetIAMToken token c = Returned c1 /\
    initOnce c1 = true /\
    data_IAMToken (data c1) = token /\
    raw_value (data c1) "IAMToken" = Some (JStr token) /\
    (forall k, k <> "IAMToken" ->
               raw_value (data c1) k = raw_value (data (init c)) k) /\
    calls c1 = calls (init c) ++ [SaveCall (RawData (data_raw (data c1)))].
Proof.
  destruct (data_raw (data (init c))) as [m|] eqn:Hm; [intros _|done].
  eexists. split; [by apply SetIAMToken_eq|]. cbn [initOnce data calls].
  split; [done|]. split; [apply data_IAMToken_set|].
  split; [apply raw_value_insert_eq|].
  split; [|done].
  intros k Hk. eapply raw_value_insert_ne; [exact Hm|done].
Qed.

Lemma SetIAMRefreshToken_step c token :
  data_raw (data (init c)) <> None ->
  exists c1,
    SetIAMRefreshToken token c = Returned c1 /\
    initOnce c1 = true /\
    data_IAMRefreshToken (data c1) = token /\
    raw_value (data c1) "IAMRefreshToken" = Some (JStr token) /\
    (forall k, k <> "IAMRefreshToken" ->
               raw_value (data c1) k = raw_value (data (init c)) k) /\
    calls c1 = calls (init c) ++ [SaveCall (RawData (data_raw (data c1)))].
Proof.
  destruct (data_raw (data (init c))) as [m|] eqn:Hm; [intros _|done].
  eexists. split; [by apply SetIAMRefreshToken_eq|]. cbn [initOnce data calls].
  split; [done|]. split; [apply data_IAMRefreshToken_set|].
  split; [apply raw_value_insert_eq|].
  split; [|done].
  intros k Hk. eapply raw_value_insert_ne; [exact Hm|done].
Qed.

Lemma raw_value_Some_not_nil d k v : raw_value d k = Some v -> data_raw d <> None.
Proof. unfold raw_value. by destruct (data_raw d). Qed.

Lemma unknown_key_ne K k : ~ In K known_keys -> In k known_keys -> k <> K.
Proof. intros HK Hk ->. contradiction. Qed.

(** C1: on a repository whose raw map, once loaded, holds a key [K] outside
    the typed schema, [SetIAMToken] (and [SetIAMRefreshToken]) returns, sets
    the typed token and the key of the same name in the raw map, hands the
    raw map (not the document) to [Save], and leaves [K] with its value;
    after [SetIAMToken tok1] then [SetIAMToken tok2], [IAMToken] returns
    [tok2] and [K] is still there. *)
Theorem SetIAMToken_keeps_unknown_keys c (K : string) (v : json) (tok1 tok2 : string) :
  raw_value (data (init c)) K = Some v ->
  ~ In K known_keys ->
  (exists c1 c2,
      SetIAMToken tok1 c = Returned c1 /\
      data_IAMToken (data c1) = tok1 /\
      raw_value (data c1) "IAMToken" = Some (JStr tok1) /\
      raw_value (data c1) K = Some v /\
      calls c1 = calls (init c) ++ [SaveCall (RawData (data_raw (data c1)))] /\
      SetIAMToken tok2 c1 = Returned c2 /\
      (IAMToken c2).1 = tok2 /\
      raw_value (data c2) "IAMToken" = Some (JStr tok2) /\
      raw_value (data c2) K = Some v /\
      calls c2 = calls c1 ++ [SaveCall (RawData (data_raw (data c2)))]) /\
  (exists c1,
      SetIAMRefreshToken tok1 c = Returned c1 /\
      data_IAMRefreshToken (data c1) = tok1 /\
      raw_value (data c1) "IAMRefreshToken" = Some (JStr tok1) /\
      raw_value (data c1) K = Some v /\
      calls c1 = calls (init c) ++ [SaveCall (RawData (data_raw (data c1)))]).
Proof.
  intros HK Hunknown.
  assert (Hnil : data_raw (data (init c)) <> None) by (by eapply raw_value_Some_not_nil).
  assert (K1 : "IAMToken" <> K).
  { apply unknown_key_ne; [done|]. vm_compute. tauto. }
  assert (K2 : "IAMRefreshToken" <> K).
  { apply unknown_key_ne; [done|]. vm_compute. tauto. }
  split.
  - destruct (SetIAMToken_step c tok1 Hnil) as (c1 & E1 & I1 & T1 & R1 & F1 & C1).
    assert (HK1 : raw_value (data c1) K = Some v) by (rewrite F1; done).
    assert (Hnil1 : data_raw (data (init c1)) <> None).
    { rewrite init_done by done. by eapply raw_value_Some_not_nil. }
    destruct (SetIAMToken_step c1 tok2 Hnil1) as (c2 & E2 & I2 & T2 & R2 & F2 & C2).
    rewrite (init_done c1) in F2, C2 by done.
    exists c1, c2. repeat split; try done.
    + unfold IAMToken. rewrite read_eq. simpl. by rewrite init_done.
    + by rewrite F2.
  - destruct (SetIAMRefreshToken_step c tok1 Hnil) as (c1 & E1 & I1 & T1 & R1 & F1 & C1).
    exists c1. repeat split; try done. by rewrite F1.
Qed.

(** *** [ClearSession] and [ClearAPICache] *)

(** C8: [ClearSession] empties the access token, the refresh token, the
    account and the resource group, and leaves the region fields, the
    console endpoint and every other typed field as the lazy load left
    them. *)
Theorem ClearSession_resets_session c :
  let d0 := data (init c) in
  let d := data (ClearSession c) in
  (data_IAMToken d = "" /\
   data_IAMRefreshToken d = "" /\
   data_Account d = models.Account_zero /\
   data_ResourceGroup d = models.ResourceGroup_zero) /\
  (data_Region d = data_Region d0 /\
   data_RegionID d = data_RegionID d0 /\
   data_RegionType d = data_RegionType d0 /\
   data_ConsoleEndpoint d = data_ConsoleEndpoint d0) /\
  (data_IAMEndpoint d = data_IAMEndpoint d0 /\
   data_IAMID d = data_IAMID d0 /\
   data_PluginRepos d = data_PluginRepos d0 /\
   data_Locale d = data_Locale d0 /\
   data_Trace d = data_Trace d0 /\
   data_ColorEnabled d = data_ColorEnabled d0 /\
   data_HTTPTimeout d = data_HTTPTimeout d0 /\
   data_CLIInfoEndpoint d = data_CLIInfoEndpoint d0 /\
   data_CheckCLIVersionDisabled d = data_CheckCLIVersionDisabled d0 /\
   data_UsageStatsDisabled d = data_UsageStatsDisabled d0).
Proof.
  intros d0 d. subst d d0. unfold ClearSession. rewrite data_write.
  destruct (data (init c)). repeat split; reflexivity.
Qed.

(** What [ClearAPICache] does to each field: four are emptied, and
    [RegionType] is among the fourteen that keep their value. *)
Lemma ClearAPICache_fields c :
  let d0 := data (init c) in
  let d := data (ClearAPICache c) in
  (data_Region d = "" /\
   data_RegionID d = "" /\
   data_ConsoleEndpoint d = "" /\
   data_IAMEndpoint d = "") /\
  data_RegionType d = data_RegionType d0 /\
  (data_IAMToken d = data_IAMToken d0 /\
   data_IAMRefreshToken d = data_IAMRefreshToken d0) /\
  (data_IAMID d = data_IAMID d0 /\
   data_Account d = data_Account d0 /\
   data_ResourceGroup d = data_ResourceGroup d0 /\
   data_PluginRepos d = data_PluginRepos d0 /\
   data_Locale d = data_Locale d0 /\
   data_Trace d = data_Trace d0 /\
   data_ColorEnabled d = data_ColorEnabled d0 /\
   data_HTTPTimeout d = data_HTTPTimeout d0 /\
   data_CLIInfoEndpoint d = data_CLIInfoEndpoint d0 /\
   data_CheckCLIVersionDisabled d = data_CheckCLIVersionDisabled d0 /\
   data_UsageStatsDisabled d = data_UsageStatsDisabled d0).
Proof.
  intros d0 d. subst d d0. unfold ClearAPICache. rewrite data_write.
  destruct (data (init c)). repeat split; reflexivity.
Qed.

(** *** The plugin repositories *)

Section NamesProofs.
Context (EqualFold : string -> string -> bool) (ToLower : string -> string).

Lemma lookup_repo_found name before r after :
  EqualFold (models.PluginRepo_Name r) name = true ->
  (forall x, In x before -> EqualFold (models.PluginRepo_Name x) name = false) ->
  lookup_repo EqualFold name (before ++ r :: after) = (r, true).
Proof.
  intros Hr. induction before as [|x before IH]; intros Hbefore; simpl.
  - by rewrite Hr.
  - rewrite (Hbefore x) by (by left). apply IH. intros y Hy. apply Hbefore. by right.
Qed.

Lemma lookup_repo_absent name repos :
  (forall x, In x repos -> EqualFold (models.PluginRepo_Name x) name = false) ->
  lookup_repo EqualFold name repos = (models.PluginRepo_zero, false).
Proof.
  induction repos as [|x repos IH]; intros Hall; simpl; [done|].
  rewrite (Hall x) by (by left). apply IH. intros y Hy. apply Hall. by right.
Qed.

Lemma index_repo_found name before r after :
  ToLower (models.PluginRepo_Name r) = ToLower name ->
  (forall x, In x before -> ToLower (models.PluginRepo_Name x) <> ToLower name) ->
  index_repo ToLower name (before ++ r :: after) = length before.
Proof.
  intros Hr. induction before as [|x before IH]; intros Hbefore; simpl.
  - by rewrite Hr, String.eqb_refl.
  - assert (Hx : String.eqb (ToLower (models.PluginRepo_Name x)) (ToLower name) = false).
    { apply String.eqb_neq, Hbefore. by left. }
    rewrite Hx. f_equal. apply IH. intros y Hy. apply Hbefore. by right.
Qed.

Lemma index_repo_absent name repos :
  (forall x, In x repos -> ToLower (models.PluginRepo_Name x) <> ToLower name) ->
  index_repo ToLower name repos = length repos.
Proof.
  induction repos as [|x repos IH]; intros Hall; simpl; [done|].
  assert (Hx : String.eqb (ToLower (models.PluginRepo_Name x)) (ToLower name) = false).
  { apply String.eqb_neq, Hall. by left. }
  rewrite Hx. f_equal. apply IH. intros y Hy. apply Hall. by right.
Qed.

Lemma data_PluginRepos_set_raw r d : data_PluginRepos (set_raw r d) = data_PluginRepos d.
Proof. by destruct d. Qed.

Lemma data_PluginRepos_set v d : data_PluginRepos (set_PluginRepos v d) = v.
Proof. by destruct d. Qed.

Lemma data_UnSetPluginRepo name c :
  let repos := slice_items (data_PluginRepos (data (init c))) in
  let i := index_repo ToLower name repos in
  data_PluginRepos (data (UnSetPluginRepo ToLower name c)) =
    if negb (Nat.eqb i (length repos))
    then Some (take i repos ++ drop (S i) repos)
    else data_PluginRepos (data (init c)).
Proof.
  intros repos i. unfold UnSetPluginRepo.
  rewrite data_write, data_PluginRepos_set_raw. fold repos. fold i.
  destruct (negb (Nat.eqb i (length repos))); [|done].
  by rewrite data_PluginRepos_set.
Qed.

(** C9: [PluginRepo name] returns the first entry whose name folds to
    [name] under [strings.EqualFold], with [true], and the zero entry with
    [false] when there is none; [UnSetPluginRepo name] removes the first
    entry whose lower-cased name is the lower-cased [name], and only that
    one, and leaves the list as it is when there is none. *)
Theorem PluginRepo_lookup_and_unset c (name : string) :
  let repos := slice_items (data_PluginRepos (data (init c))) in
  (forall before r after,
      repos = before ++ r :: after ->
      EqualFold (models.PluginRepo_Name r) name = true ->
      (forall x, In x before -> EqualFold (models.PluginRepo_Name x) name = false) ->
      (PluginRepo EqualFold name c).1 = (r, true)) /\
  ((forall x, In x repos -> EqualFold (models.PluginRepo_Name x) name = false) ->
   (PluginRepo EqualFold name c).1 = (models.PluginRepo_zero, false)) /\
  (forall before r after,
      repos = before ++ r :: after ->
      ToLower (models.PluginRepo_Name r) = ToLower name ->
      (forall x, In x before -> ToLower (models.PluginRepo_Name x) <> ToLower name) ->
      data_PluginRepos (data (UnSetPluginRepo ToLower name c)) = Some (before ++ after)) /\
  ((forall x, In x repos -> ToLower (models.PluginRepo_Name x) <> ToLower name) ->
   data_PluginRepos (data (UnSetPluginRepo ToLower name c)) =
     data_PluginRepos (data (init c))).
Proof.
  intros repos.
  assert (Hget : (PluginRepo EqualFold name c).1 = lookup_repo EqualFold name repos)
    by reflexivity.
  repeat split.
  - intros before r after Hrepos Hr Hbefore.
    rewrite Hget, Hrepos. by apply lookup_repo_found.
  - intros Hall. rewrite Hget. by apply lookup_repo_absent.
  - intros before r after Hrepos Hr Hbefore.
    rewrite data_UnSetPluginRepo. fold repos. rewrite Hrepos.
    rewrite index_repo_found by done.
    replace (Nat.eqb (length before) (length (before ++ r :: after))) with false
      by (symmetry; apply Nat.eqb_neq; rewrite length_app; simpl; lia).
    cbn [negb]. rewrite take_app_length.
    rewrite (cons_middle r before after), app_assoc.
    rewrite drop_app_length' by (rewrite length_app; simpl; lia).
    reflexivity.
  - intros Hall. rewrite data_UnSetPluginRepo. fold repos.
    rewrite index_repo_absent by done. by rewrite Nat.eqb_refl.
Qed.

Lemma data_SetPluginRepo e c :
  data_PluginRepos (data (SetPluginRepo e c)) =
    Some (slice_items (data_PluginRepos (data (init c))) ++ [e]).
Proof.
  unfold SetPluginRepo.
  by rewrite data_write, data_PluginRepos_set_raw, data_PluginRepos_set.
Qed.

(** C10: [SetPluginRepo] puts the entry at the end of the list and removes
    nothing: after two calls with entries whose names both match a lookup
    key, the list has grown by these two entries, and two more entries match
    the key than before. *)
Theorem SetPluginRepo_appends_without_dedup c (e1 e2 : models.PluginRepo) (key : string) :
  EqualFold (models.PluginRepo_Name e1) key = true ->
  EqualFold (models.PluginRepo_Name e2) key = true ->
  let matches := fun r => EqualFold (models.PluginRepo_Name r) key = true in
  let repos := slice_items (data_PluginRepos (data (init c))) in
  let c1 := SetPluginRepo e1 c in
  let c2 := SetPluginRepo e2 c1 in
  data_PluginRepos (data c1) = Some (repos ++ [e1]) /\
  data_PluginRepos (data c2) = Some (repos ++ [e1; e2]) /\
  length (filter matches (slice_items (data_PluginRepos (data c2)))) =
    (length (filter matches repos) + 2)%nat.
Proof.
  intros H1 H2 matches repos c1 c2.
  assert (E1 : data_PluginRepos (data c1) = Some (repos ++ [e1]))
    by apply data_SetPluginRepo.
  assert (E2 : data_PluginRepos (data c2) = Some (repos ++ [e1; e2])).
  { unfold c2. rewrite data_SetPluginRepo.
    rewrite (init_done c1) by apply initOnce_write.
    rewrite E1. simpl. by rewrite <- app_assoc. }
  repeat split; [done..|].
  rewrite E2. simpl. rewrite filter_app, length_app.
  rewrite !filter_cons_True by done. reflexivity.
Qed.

End NamesProofs.

(** *** Lazy initialisation *)

Lemma loads_app l1 l2 : loads (l1 ++ l2) = (loads l1 + loads l2)%nat.
Proof. unfold loads. by rewrite filter_app, length_app. Qed.

Lemma report_app err hs : report err hs = hs ++ report err [].
Proof. destruct err; simpl; [done|]. by rewrite app_nil_r. Qed.

Lemma init_fresh p :
  init (createBluemixConfigFromPersistor p) =
    mkRepository (Load p NewBXConfigData).1.2 (Load p NewBXConfigData).1.1 true
                 (report (Load p NewBXConfigData).2 []) [LoadCall].
Proof.
  unfold init, createBluemixConfigFromPersistor. simpl.
  by destruct (Load p NewBXConfigData) as [[p' d] err].
Qed.

Lemma after_init_refl c : after_init c (init c).
Proof.
  split; [apply initOnce_init|]. exists [], []. by rewrite !app_nil_r.
Qed.

Lemma after_init_write cb c : after_init c (write cb c).
Proof.
  rewrite write_eq. split; [done|]. cbn [handled calls].
  eexists _, _. split; [apply report_app|]. split; [reflexivity|reflexivity].
Qed.

Lemma after_init_writeRaw cb c : after_init c (state_of (writeRaw cb c)).
Proof.
  unfold writeRaw. destruct (cb (data (init c))) as [d|msg d].
  - destruct (Save (persistor (init c)) (RawData (data_raw d))) as [p err].
    split; [apply initOnce_init|]. cbn [state_of handled calls].
    eexists _, _. split; [apply report_app|]. split; reflexivity.
  - split; [apply initOnce_init|]. cbn [state_of handled calls].
    exists [], []. by rewrite !app_nil_r.
Qed.

Lemma after_init_trans c c1 c2 :
  after_init c c1 -> after_init c1 c2 -> after_init c c2.
Proof.
  intros [I1 (hs1 & cs1 & H1 & C1 & L1)] [I2 (hs2 & cs2 & H2 & C2 & L2)].
  rewrite (init_done c1) in H2, C2 by done.
  split; [done|]. exists (hs1 ++ hs2), (cs1 ++ cs2).
  rewrite H2, H1, C2, C1, !app_assoc, loads_app, L1, L2. done.
Qed.

Section CallsProofs.
Context (EqualFold : string -> string -> bool) (ToLower : string -> string).
Context (NewIAMTokenInfo : string -> IAMTokenInfo).

Lemma run_getter_init g c : run_getter EqualFold NewIAMTokenInfo g c = init c.
Proof. by destruct g. Qed.

Lemma after_init_exec op c :
  after_init c (state_of (exec EqualFold ToLower NewIAMTokenInfo op c)).
Proof.
  destruct op as [g|w|t]; cbn [exec state_of].
  - rewrite run_getter_init. apply after_init_refl.
  - destruct (run_full_setter_write ToLower w) as [cb ->]. apply after_init_write.
  - destruct t; apply after_init_writeRaw.
Qed.

Lemma after_init_run ops c :
  ops <> [] ->
  after_init c (state_of (run EqualFold ToLower NewIAMTokenInfo ops c)).
Proof.
  revert c. induction ops as [|op ops IH]; intros c Hne; [done|].
  cbn [run]. pose proof (after_init_exec op c) as Hop.
  destruct (exec EqualFold ToLower NewIAMTokenInfo op c) as [c1|msg c1];
    cbn [state_of] in *; [|done].
  destruct ops as [|op' ops']; [done|].
  eapply after_init_trans; [exact Hop|]. by apply IH.
Qed.

(** C4: over any sequence of calls on a new repository [Load] runs at most
    once: the first call runs it (it is the first persistor call, and the
    gate is closed afterwards), a failure of it goes to the error handler,
    and no call made once the gate is closed runs it again, whether it
    succeeded or not. *)
Theorem Load_at_most_once (p : P) (ops : list operation) :
  let c := state_of (run EqualFold ToLower NewIAMTokenInfo ops
                         (createBluemixConfigFromPersistor p)) in
  (loads (calls c) <= 1)%nat /\
  (ops <> [] ->
   loads (calls c) = 1%nat /\ head (calls c) = Some LoadCall /\ initOnce c = true) /\
  (forall e, ops <> [] -> (Load p NewBXConfigData).2 = Some e ->
             head (handled c) = Some e) /\
  (forall (c0 : bxConfigRepository P) (later : list operation),
      initOnce c0 = true ->
      loads (calls (state_of (run EqualFold ToLower NewIAMTokenInfo later c0))) =
        loads (calls c0)).
Proof.
  intros c.
  assert (Hfirst : ops <> [] ->
            loads (calls c) = 1%nat /\ head (calls c) = Some LoadCall /\
            initOnce c = true /\
            forall e, (Load p NewBXConfigData).2 = Some e -> head (handled c) = Some e).
  { intros Hne.
    destruct (after_init_run ops (createBluemixConfigFromPersistor p) Hne)
      as [Hi (hs & cs & Hh & Hc & Hl)].
    fold c in Hi, Hh, Hc. rewrite init_fresh in Hh, Hc. cbn [handled calls] in Hh, Hc.
    rewrite Hc, Hh. repeat split; try done.
    - by rewrite loads_app, Hl.
    - intros e ->. done. }
  split; [|split; [|split]].
  - destruct ops as [|op ops']; [unfold c; cbn; lia|].
    destruct Hfirst as [-> _]; [done|lia].
  - intros Hne. destruct (Hfirst Hne) as (? & ? & ? & _). done.
  - intros e Hne He. destruct (Hfirst Hne) as (_ & _ & _ & Hh). by apply Hh.
  - intros c0 later Hc0. destruct later as [|op later']; [done|].
    destruct (after_init_run (op :: later') c0) as [_ (hs & cs & _ & Hc & Hl)]; [done|].
    rewrite Hc, (init_done c0), loads_app, Hl by done. lia.
Qed.

End CallsProofs.

(** *** Failing saves *)

(** A getter called after a [write] reads the document the [write] left. *)
Lemma read_write {A} (g : BXConfigData -> A) cb c :
  (read g (write cb c)).1 =
    g (set_raw (Some (structs_Map (cb (data (init c))))) (cb (data (init c)))).
Proof.
  rewrite read_eq. cbn [fst].
  by rewrite (init_done (write cb c)), data_write by apply initOnce_write.
Qed.

Lemma run_token_setter_writeRaw t :
  exists cb, forall c, run_token_setter t c = writeRaw cb c.
Proof. destruct t; eexists; intros c; reflexivity. Qed.

Lemma writeRaw_Returned cb c c' :
  writeRaw cb c = Returned c' -> exists d, cb (data (init c)) = Returned d.
Proof.
  unfold writeRaw. destruct (cb (data (init c))) as [d|msg d]; [eauto|discriminate].
Qed.

Ltac read_back :=
  intros; rewrite read_write; destruct (data (init _)); reflexivity.

(** C5: when [Save] returns an error in a setter, the handler receives that
    error and the call recorded is the save of the changed document (of the
    changed raw map, for the token setters); the change stays in memory: a
    getter called after a setter returns the value set, whatever [Save]
    returned.  Setters return a repository and getters a value: no error
    reaches the caller. *)
Theorem save_failure_keeps_mutation (ToLower : string -> string) c :
  (forall (w : full_setter) (e : error),
      let c' := run_full_setter ToLower w c in
      (Save (persistor (init c)) (DocumentData (data c'))).2 = Some e ->
      handled c' = handled (init c) ++ [e] /\
      calls c' = calls (init c) ++ [SaveCall (DocumentData (data c'))]) /\
  (forall (t : token_setter) (e : error) c',
      run_token_setter t c = Returned c' ->
      (Save (persistor (init c)) (RawData (data_raw (data c')))).2 = Some e ->
      handled c' = handled (init c) ++ [e] /\
      calls c' = calls (init c) ++ [SaveCall (RawData (data_raw (data c')))]) /\
  ((forall x, (ConsoleEndpoint (SetConsoleEndpoint x c)).1 = x) /\
   (forall x, (Region (SetRegion x c)).1 = x) /\
   (forall x, (IAMEndpoint (SetIAMEndpoint x c)).1 = x) /\
   (forall x, (Account (SetAccount x c)).1 = x) /\
   (forall x, (ResourceGroup (SetResourceGroup x c)).1 = x) /\
   (forall x, (HTTPTimeout (SetHTTPTimeout x c)).1 = x) /\
   (forall x, (CheckCLIVersionDisabled (SetCheckCLIVersionDisabled x c)).1 = x) /\
   (forall x, (CLIInfoEndpoint (SetCLIInfoEndpoint x c)).1 = x) /\
   (forall x, (UsageStatsDisabled (SetUsageStatsDisabled x c)).1 = x) /\
   (forall x, (ColorEnabled (SetColorEnabled x c)).1 = x) /\
   (forall x, (Locale (SetLocale x c)).1 = x) /\
   (forall x, (Trace (SetTrace x c)).1 = x)) /\
  (forall x c', SetIAMToken x c = Returned c' -> (IAMToken c').1 = x) /\
  (forall x c', SetIAMRefreshToken x c = Returned c' -> (IAMRefreshToken c').1 = x).
Proof.
  split; [|split; [|split; [|split]]].
  - intros w e c'. subst c'.
    destruct (run_full_setter_write ToLower w) as [cb ->].
    rewrite data_write, write_eq. cbn [handled calls data]. by intros ->.
  - intros t e c' Hrun.
    destruct (run_token_setter_writeRaw t) as [cb Heq].
    rewrite Heq in Hrun.
    destruct (writeRaw_Returned cb c c' Hrun) as [d Hcb].
    rewrite (writeRaw_eq cb c d Hcb) in Hrun. injection Hrun as <-.
    cbn [data handled calls]. by intros ->.
  - unfold ConsoleEndpoint, SetConsoleEndpoint, Region, SetRegion, IAMEndpoint,
      SetIAMEndpoint, Account, SetAccount, ResourceGroup, SetResourceGroup, HTTPTimeout,
      SetHTTPTimeout, CheckCLIVersionDisabled, SetCheckCLIVersionDisabled,
      CLIInfoEndpoint, SetCLIInfoEndpoint, UsageStatsDisabled, SetUsageStatsDisabled,
      ColorEnabled, SetColorEnabled, Locale, SetLocale, Trace, SetTrace.
    repeat split; try read_back.
    intros [id name type]. read_back.
  - intros x c' Hset. unfold SetIAMToken, writeRaw in Hset.
    destruct (raw_assign "IAMToken" x (set_IAMToken x (data (init c))))
      as [d|msg d] eqn:Hcb; [|discriminate].
    destruct (Save (persistor (init c)) (RawData (data_raw d))) as [p err].
    injection Hset as <-. unfold IAMToken. rewrite read_eq. cbn [fst].
    rewrite init_done by apply initOnce_init. cbn [data].
    unfold raw_assign in Hcb. destruct (data_raw (set_IAMToken x (data (init c))));
      [|discriminate]. injection Hcb as <-. apply data_IAMToken_set.
  - intros x c' Hset. unfold SetIAMRefreshToken, writeRaw in Hset.
    destruct (raw_assign "IAMRefreshToken" x (set_IAMRefreshToken x (data (init c))))
      as [d|msg d] eqn:Hcb; [|discriminate].
    destruct (Save (persistor (init c)) (RawData (data_raw d))) as [p err].
    injection Hset as <-. unfold IAMRefreshToken. rewrite read_eq. cbn [fst].
    rewrite init_done by apply initOnce_init. cbn [data].
    unfold raw_assign in Hcb.
    destruct (data_raw (set_IAMRefreshToken x (data (init c)))); [|discriminate].
    injection Hcb as <-. apply data_IAMRefreshToken_set.
Qed.

End RepositoryProofs.

(** ** The theorems at work *)

(** C7: after [SetRegion] with a region of type "public", [ClearAPICache]
    empties the id and the name of the region but not its type: [Region]
    still reports "public", and so does [CloudType]. *)
Theorem ClearAPICache_keeps_RegionType :
  let c := SetRegion Sample.public_region Sample.repository in
  (Region c).1 = Sample.public_region /\
  (Region (ClearAPICache c)).1 = models.mkRegion "" "" "public" /\
  (CloudType (ClearAPICache c)).1 = "public".
Proof. vm_compute. repeat split. Qed.

Lemma FutureSetting_unknown : ~ In "FutureSetting" known_keys.
Proof.
  intros Hin. simpl in Hin.
  repeat (destruct Hin as [Hin|Hin]; [discriminate Hin|]). exact Hin.
Defined.

Lemma SetIAMToken_keeps_unknown_keys_witness :
  raw_value (data (init Sample.repository)) "FutureSetting" = Some (JNum 7) /\
  ~ In "FutureSetting" known_keys /\
  exists c1 c2,
    SetIAMToken "tok1" Sample.repository = Returned c1 /\
    SetIAMToken "tok2" c1 = Returned c2 /\
    (IAMToken c2).1 = "tok2" /\
    raw_value (data c2) "FutureSetting" = Some (JNum 7).
Proof.
  assert (H1 : raw_value (data (init Sample.repository)) "FutureSetting" = Some (JNum 7))
    by (vm_compute; reflexivity).
  split; [exact H1|]. split; [exact FutureSetting_unknown|].
  destruct (SetIAMToken_keeps_unknown_keys Sample.repository "FutureSetting" (JNum 7)
              "tok1" "tok2" H1 FutureSetting_unknown)
    as [(c1 & c2 & E1 & _ & _ & _ & _ & E2 & T2 & _ & K2 & _) _].
  exists c1, c2. auto.
Defined.

Lemma full_write_regenerates_raw_witness :
  let c := ClearSession Sample.repository in
  raw_value (data c) "Region" = Some (JStr "us-south") /\
  raw_value (data c) "FutureSetting" = None.
Proof.
  destruct (full_write_regenerates_raw Double.ToLower DoClearSession Sample.repository)
    as (_ & Hknown & Hunknown).
  split.
  - apply Hknown. vm_compute. right. left. reflexivity.
  - apply Hunknown, FutureSetting_unknown.
Defined.




Lemma Load_at_most_once_witness :
  let ops := [Get GetLocale; TokenSet (DoSetIAMToken "t"); Get GetIAMToken;
              FullSet DoClearSession] in
  let c := state_of (run Double.EqualFold Double.ToLower Double.NewIAMTokenInfo ops
                         (createBluemixConfigFromPersistor Sample.unreadable)) in
  ops <> [] /\
  loads (calls c) = 1%nat /\
  length (calls c) = 3%nat /\
  head (handled c) = Some (PersistorError "permission denied").
Proof.
  intros ops c.
  assert (Hne : ops <> []) by discriminate.
  destruct (Load_at_most_once Double.EqualFold Double.ToLower Double.NewIAMTokenInfo
              Sample.unreadable ops) as (_ & Hone & Hfail & _).
  destruct (Hone Hne) as (Hloads & _ & _).
  split; [exact Hne|]. split; [exact Hloads|]. split; [vm_compute; reflexivity|].
  apply Hfail; [exact Hne|reflexivity].
Defined.

Lemma save_failure_keeps_mutation_witness :
  let c := SetLocale "fr_FR" Sample.read_only in
  (Save (persistor (init Sample.read_only)) (DocumentData (data c))).2
    = Some Sample.disk_full /\
  handled c = [Sample.disk_full] /\
  (Locale c).1 = "fr_FR".
Proof.
  intros c.
  destruct (save_failure_keeps_mutation Double.ToLower Sample.read_only)
    as (Hfull & _ & Hreads & _).
  assert (Hsave : (Save (persistor (init Sample.read_only)) (DocumentData (data c))).2
                  = Some Sample.disk_full) by reflexivity.
  split; [exact Hsave|]. split.
  - destruct (Hfull (DoSetLocale "fr_FR") Sample.disk_full Hsave) as [Hhandled _].
    exact Hhandled.
  - apply Hreads.
Defined.

Lemma CloudName_classification_witness :
  let c := SetRegion Sample.public_region Sample.repository in
  data_RegionID (data (init c)) = "ibm:yp:us-south" /\
  (CloudName c).1 = "bluemix".
Proof.
  intros c.
  assert (Hid : data_RegionID (data (init c)) = ("ibm" ++ ":" ++ "yp" ++ ":" ++ "us-south")%string)
    by (vm_compute; reflexivity).
  split; [exact Hid|].
  destruct (CloudName_classification c) as (_ & _ & _ & Hsegments & _).
  destruct (Hsegments "ibm" "yp" "us-south" Hid) as (_ & Hbluemix & _);
    [reflexivity..|].
  apply Hbluemix; reflexivity.
Defined.

Lemma PluginRepo_lookup_and_unset_witness :
  let c := SetPluginRepo (models.mkPluginRepo "bar" "https://bar")
             (SetPluginRepo Sample.foo Sample.repository) in
  (PluginRepo Double.EqualFold "FOO" c).1 = (Sample.foo, true) /\
  data_PluginRepos (data (UnSetPluginRepo Double.ToLower "FOO" c))
    = Some [models.mkPluginRepo "bar" "https://bar"].
Proof.
  intros c.
  assert (Hrepos : slice_items (data_PluginRepos (data (init c)))
                   = [] ++ Sample.foo :: [models.mkPluginRepo "bar" "https://bar"])
    by (vm_compute; reflexivity).
  destruct (PluginRepo_lookup_and_unset Double.EqualFold Double.ToLower c "FOO")
    as (Hfound & _ & Hremoved & _).
  split.
  - apply (Hfound [] Sample.foo [models.mkPluginRepo "bar" "https://bar"] Hrepos);
      [reflexivity | intros x []].
  - apply (Hremoved [] Sample.foo [models.mkPluginRepo "bar" "https://bar"] Hrepos);
      [reflexivity | intros x []].
Defined.

Lemma SetPluginRepo_appends_without_dedup_witness :
  Double.EqualFold (models.PluginRepo_Name Sample.foo) "Foo" = true /\
  Double.EqualFold (models.PluginRepo_Name Sample.FOO) "Foo" = true /\
  data_PluginRepos (data (SetPluginRepo Sample.FOO
                            (SetPluginRepo Sample.foo Sample.repository)))
    = Some [Sample.foo; Sample.FOO].
Proof.
  split; [reflexivity|]. split; [reflexivity|].
  destruct (SetPluginRepo_appends_without_dedup Double.EqualFold Sample.repository
              Sample.foo Sample.FOO "Foo" eq_refl eq_refl) as (_ & Htwo & _).
  exact Htwo.
Defined.

(** * Further properties *)

(** ** The typed fields as the schema sees them *)

Lemma typed_value_set_raw r d k : typed_value (set_raw r d) k = typed_value d k.
Proof. unfold typed_value. by rewrite structs_Map_set_raw. Qed.

Lemma assoc_list_to_map k (l : list (string * json)) :
  (list_to_map l : gmap string json) !! k = assoc k l.
Proof.
  induction l as [|[k' v] l IH]; [done|]. cbn [list_to_map foldr assoc].
  destruct (String.eqb_spec k' k) as [->|Hne].
  - by rewrite lookup_insert_eq.
  - by rewrite lookup_insert_ne.
Qed.

Lemma typed_value_assoc d k : typed_value d k = assoc k (document_members d).
Proof. apply assoc_list_to_map. Qed.

Ltac same_below Hk :=
  rewrite !typed_value_assoc; unfold document_members; cbn [assoc];
  repeat
    match goal with
    | |- context [String.eqb ?a ?b] =>
        destruct (String.eqb_spec a b);
        [subst; first [reflexivity | exfalso; apply Hk; cbn; tauto] | ]
    end;
  reflexivity.

Section FurtherProofs.
Context {P : Type} `{Persistor P}.
Implicit Types c : bxConfigRepository P.

Lemma full_setter_frame (ToLower : string -> string) (w : full_setter) c (k : string) :
  ~ In k (assigned_keys w) ->
  typed_value (data (run_full_setter ToLower w c)) k = typed_value (data (init c)) k.
Proof.
  intros Hk.
  destruct w; cbn [run_full_setter assigned_keys] in *;
    unfold SetConsoleEndpoint, SetRegion, SetIAMEndpoint, SetAccount, SetResourceGroup,
      SetPluginRepo, UnSetPluginRepo, SetHTTPTimeout, SetCheckCLIVersionDisabled,
      SetCLIInfoEndpoint, SetUsageStatsDisabled, SetColorEnabled, SetLocale, SetTrace,
      ClearSession, ClearAPICache;
    rewrite data_write, typed_value_set_raw.
  all: try (destruct (negb (Nat.eqb _ _)); [|reflexivity]).
  all: destruct (data (init c)); cbn [set_ConsoleEndpoint set_Region set_RegionID
    set_RegionType set_IAMEndpoint set_Account set_ResourceGroup set_PluginRepos
    set_HTTPTimeout set_CheckCLIVersionDisabled set_CLIInfoEndpoint set_UsageStatsDisabled
    set_ColorEnabled set_Locale set_Trace set_IAMToken set_IAMRefreshToken].
  all: same_below Hk.
Qed.

Lemma typed_value_set_IAMToken v d k :
  typed_value (set_IAMToken v d) k =
    if String.eqb "IAMToken" k then Some (JStr v) else typed_value d k.
Proof.
  destruct (String.eqb_spec "IAMToken" k) as [<-|Hne].
  - destruct d. by rewrite typed_value_assoc.
  - assert (Hk : ~ In k ["IAMToken"]) by (cbn; intuition).
    destruct d. cbn [set_IAMToken]. same_below Hk.
Qed.

Lemma typed_value_set_IAMRefreshToken v d k :
  typed_value (set_IAMRefreshToken v d) k =
    if String.eqb "IAMRefreshToken" k then Some (JStr v) else typed_value d k.
Proof.
  destruct (String.eqb_spec "IAMRefreshToken" k) as [<-|Hne].
  - destruct d. by rewrite typed_value_assoc.
  - assert (Hk : ~ In k ["IAMRefreshToken"]) by (cbn; intuition).
    destruct d. cbn [set_IAMRefreshToken]. same_below Hk.
Qed.

(** The document a token setter leaves when it returns. *)
Lemma run_token_setter_Returned t c c' :
  run_token_setter t c = Returned c' ->
  exists m,
    data_raw (data (init c)) = Some m /\
    initOnce c' = true /\
    handled c' = report (Save (persistor (init c)) (RawData (data_raw (data c')))).2
                        (handled (init c)) /\
    calls c' = calls (init c) ++ [SaveCall (RawData (data_raw (data c')))] /\
    data_raw (data c') = Some (<[token_key t := JStr (token_of t)]> m) /\
    forall k, typed_value (data c') k =
                if String.eqb (token_key t) k then Some (JStr (token_of t))
                else typed_value (data (init c)) k.
Proof.
  intros Hrun.
  destruct (data_raw (data (init c))) as [m|] eqn:Hm.
  - exists m. split; [done|].
    destruct t as [token|token]; cbn [run_token_setter token_key token_of] in *.
    + rewrite (SetIAMToken_eq c m token Hm) in Hrun. injection Hrun as <-.
      cbn [initOnce handled calls data]. rewrite data_raw_set_raw.
      repeat split; try done.
      intros k. by rewrite typed_value_set_raw, typed_value_set_IAMToken.
    + rewrite (SetIAMRefreshToken_eq c m token Hm) in Hrun. injection Hrun as <-.
      cbn [initOnce handled calls data]. rewrite data_raw_set_raw.
      repeat split; try done.
      intros k. by rewrite typed_value_set_raw, typed_value_set_IAMRefreshToken.
  - exfalso. destruct t as [token|token]; cbn [run_token_setter] in Hrun;
      unfold SetIAMToken, SetIAMRefreshToken, writeRaw, raw_assign in Hrun.
    + rewrite data_raw_set_IAMToken, Hm in Hrun. discriminate.
    + rewrite data_raw_set_IAMRefreshToken, Hm in Hrun. discriminate.
Qed.

(** X1: a setter changes no typed field but the ones its callback assigns:
    under every other key of the schema the document holds the value the
    lazy load left; a token setter that returns also leaves every other key
    of the raw map as it was. *)
Theorem setters_frame (ToLower : string -> string) c (k : string) :
  (forall w : full_setter,
      ~ In k (assigned_keys w) ->
      typed_value (data (run_full_setter ToLower w c)) k = typed_value (data (init c)) k) /\
  (forall (t : token_setter) c',
      run_token_setter t c = Returned c' ->
      k <> token_key t ->
      typed_value (data c') k = typed_value (data (init c)) k /\
      raw_value (data c') k = raw_value (data (init c)) k).
Proof.
  split.
  - intros w. apply full_setter_frame.
  - intros t c' Hrun Hk.
    destruct (run_token_setter_Returned t c c' Hrun) as (m & Hm & _ & _ & _ & Hraw & Htyped).
    split.
    + rewrite Htyped. destruct (String.eqb_spec (token_key t) k); [congruence|done].
    + unfold raw_value. rewrite Hraw, Hm. by rewrite lookup_insert_ne.
Qed.

(** *** The raw map in step with the typed fields *)

Lemma in_step_write cb c : in_step (data (write cb c)).
Proof.
  intros k v. rewrite data_write, typed_value_set_raw. unfold raw_value, typed_value.
  by rewrite data_raw_set_raw.
Qed.

Lemma in_step_token_setter t c c' :
  in_step (data (init c)) -> run_token_setter t c = Returned c' -> in_step (data c').
Proof.
  intros Hstep Hrun k v.
  destruct (run_token_setter_Returned t c c' Hrun) as (m & Hm & _ & _ & _ & Hraw & Htyped).
  rewrite Htyped. unfold raw_value. rewrite Hraw.
  destruct (String.eqb_spec (token_key t) k) as [<-|Hne].
  - by rewrite lookup_insert_eq.
  - rewrite lookup_insert_ne by done. intros Hv.
    specialize (Hstep k v Hv). unfold raw_value in Hstep. by rewrite Hm in Hstep.
Qed.

Section SequencesProofs.
Context (EqualFold : string -> string -> bool) (ToLower : string -> string).
Context (NewIAMTokenInfo : string -> IAMTokenInfo).

Lemma exec_Returned_initOnce op c c' :
  exec EqualFold ToLower NewIAMTokenInfo op c = Returned c' -> initOnce c' = true.
Proof.
  intros Hexec. pose proof (after_init_exec EqualFold ToLower NewIAMTokenInfo op c) as [Hi _].
  by rewrite Hexec in Hi.
Qed.

(** X2: after a setter that goes through [write] the raw map holds, under
    every key of the schema, the value of the typed field; and once that is
    so on an initialised repository, it stays so over every sequence of
    calls that returns, token setters included. *)
Theorem raw_in_step_invariant :
  (forall (w : full_setter) c, in_step (data (run_full_setter ToLower w c))) /\
  (forall (ops : list operation) c c',
      initOnce c = true ->
      in_step (data c) ->
      run EqualFold ToLower NewIAMTokenInfo ops c = Returned c' ->
      in_step (data c')).
Proof.
  split.
  - intros w c. destruct (run_full_setter_write ToLower w) as [cb ->]. apply in_step_write.
  - induction ops as [|op ops IH]; intros c c' Hinit Hstep Hrun; cbn [run] in Hrun.
    + by injection Hrun as <-.
    + destruct (exec EqualFold ToLower NewIAMTokenInfo op c) as [c1|msg c1] eqn:Hexec;
        [|discriminate].
      apply (IH c1 c'); [by eapply exec_Returned_initOnce| |done].
      destruct op as [g|w|t]; cbn [exec] in Hexec.
      * injection Hexec as <-. by rewrite run_getter_init, init_done.
      * injection Hexec as <-.
        destruct (run_full_setter_write ToLower w) as [cb ->]. apply in_step_write.
      * eapply in_step_token_setter; [|exact Hexec]. by rewrite init_done.
Qed.

(** *** One save for each setter *)

Lemma saves_app l1 l2 : saves (l1 ++ l2) = (saves l1 + saves l2)%nat.
Proof. unfold saves. by rewrite filter_app, length_app. Qed.

Lemma saves_LoadCall : saves [LoadCall] = 0%nat.
Proof. reflexivity. Qed.

Lemma saves_SaveCall src : saves [SaveCall src] = 1%nat.
Proof. reflexivity. Qed.

Lemma loads_LoadCall : loads [LoadCall] = 1%nat.
Proof. reflexivity. Qed.

Lemma loads_init c : (loads (calls (init c)) <= loads (calls c) + 1)%nat.
Proof.
  unfold init. destruct (initOnce c); [lia|].
  destruct (Load (persistor c) (data c)) as [[p d] err]. cbn [calls].
  rewrite loads_app, loads_LoadCall. lia.
Qed.

Lemma saves_init c : saves (calls (init c)) = saves (calls c).
Proof.
  unfold init. destruct (initOnce c); [done|].
  destruct (Load (persistor c) (data c)) as [[p d] err]. cbn [calls].
  rewrite saves_app, saves_LoadCall. lia.
Qed.

Lemma saves_exec op c c' :
  exec EqualFold ToLower NewIAMTokenInfo op c = Returned c' ->
  saves (calls c') = (saves (calls c) + if is_setter op then 1 else 0)%nat.
Proof.
  destruct op as [g|w|t]; cbn [exec is_setter]; intros Hexec.
  - injection Hexec as <-. rewrite run_getter_init, saves_init. lia.
  - injection Hexec as <-. destruct (run_full_setter_write ToLower w) as [cb ->].
    rewrite write_eq. cbn [calls]. by rewrite saves_app, saves_init, saves_SaveCall.
  - destruct (run_token_setter_Returned t c c' Hexec) as (m & _ & _ & _ & Hcalls & _).
    by rewrite Hcalls, saves_app, saves_init, saves_SaveCall.
Qed.

(** X3: over a sequence of calls that returns, [Save] is called once for
    each setter call and never for a getter, and [Load] at most once. *)
Theorem one_save_per_setter (ops : list operation) c c' :
  run EqualFold ToLower NewIAMTokenInfo ops c = Returned c' ->
  saves (calls c') = (saves (calls c) + setters ops)%nat /\
  (loads (calls c') <= loads (calls c) + 1)%nat.
Proof.
  revert c. induction ops as [|op ops IH]; intros c Hrun; cbn [run] in Hrun.
  - injection Hrun as <-. unfold setters. cbn. lia.
  - destruct (exec EqualFold ToLower NewIAMTokenInfo op c) as [c1|msg c1] eqn:Hexec;
      [|discriminate].
    destruct (IH c1 Hrun) as [Hsaves Hloads].
    pose proof (saves_exec op c c1 Hexec) as Hop.
    pose proof (after_init_exec EqualFold ToLower NewIAMTokenInfo op c) as Hafter.
    rewrite Hexec in Hafter. cbn [state_of] in Hafter.
    destruct Hafter as [Hi1 (hs & cs & _ & Hc1 & Hl)].
    split.
    + rewrite Hsaves, Hop. unfold setters. cbn [filter].
      destruct (is_setter op) eqn:Hset.
      * rewrite filter_cons_True by done. cbn. lia.
      * rewrite filter_cons_False by (rewrite Hset; done). lia.
    + destruct ops as [|op' ops'].
      * cbn [run] in Hrun. injection Hrun as <-. rewrite Hc1, loads_app, Hl.
        pose proof (loads_init c). lia.
      * destruct (after_init_run EqualFold ToLower NewIAMTokenInfo (op' :: ops') c1)
          as [_ (hs' & cs' & _ & Hc' & Hl')]; [done|].
        rewrite Hrun in Hc'. cbn [state_of] in Hc'.
        rewrite Hc', (init_done c1), loads_app, Hl', Hc1, loads_app, Hl by done.
        pose proof (loads_init c). lia.
Qed.

End SequencesProofs.

(** *** Token setters and the nil raw map *)

(** X4: a token setter panics exactly when the raw map is nil once loaded:
    it has then stored the token in the typed field, and has neither called
    [Save] nor the error handler; when the raw map is not nil it returns. *)
Theorem token_setter_nil_raw (t : token_setter) c :
  (data_raw (data (init c)) = None ->
   exists c',
     run_token_setter t c = Panicked "assignment to entry in nil map" c' /\
     typed_value (data c') (token_key t) = Some (JStr (token_of t)) /\
     data_raw (data c') = None /\
     calls c' = calls (init c) /\
     handled c' = handled (init c)) /\
  (data_raw (data (init c)) <> None ->
   exists c', run_token_setter t c = Returned c').
Proof.
  split.
  - intros Hnil.
    destruct t as [token|token]; cbn [run_token_setter token_key token_of];
      unfold SetIAMToken, SetIAMRefreshToken, writeRaw, raw_assign.
    + rewrite data_raw_set_IAMToken, Hnil. eexists. split; [reflexivity|].
      cbn [data calls handled]. rewrite data_raw_set_IAMToken.
      by rewrite typed_value_set_IAMToken.
    + rewrite data_raw_set_IAMRefreshToken, Hnil. eexists. split; [reflexivity|].
      cbn [data calls handled]. rewrite data_raw_set_IAMRefreshToken.
      by rewrite typed_value_set_IAMRefreshToken.
  - intros Hsome. destruct (data_raw (data (init c))) as [m|] eqn:Hm; [|done].
    destruct t as [token|token]; cbn [run_token_setter]; eexists.
    + by apply SetIAMToken_eq.
    + by apply SetIAMRefreshToken_eq.
Qed.

(** *** Derived getters *)

(** X5: the derived getters after the setters: [HasAccount] is true after
    [SetAccount] exactly for a non-empty GUID, [HasResourceGroup] after
    [SetResourceGroup] exactly for a non-empty GUID and a non-empty name;
    both are false after [ClearSession]; after [SetRegion], [CloudName]
    classifies the id set and [CloudType] is the type set; after
    [ClearAPICache], [CloudName] is empty. *)
Theorem derived_getters_after_setters c :
  (forall a, (HasAccount (SetAccount a c)).1 = true <-> models.Account_GUID a <> "") /\
  (forall g, (HasResourceGroup (SetResourceGroup g c)).1 = true <->
             models.ResourceGroup_GUID g <> "" /\ models.ResourceGroup_Name g <> "") /\
  (HasAccount (ClearSession c)).1 = false /\
  (HasResourceGroup (ClearSession c)).1 = false /\
  (forall r, (CloudName (SetRegion r c)).1 = cloud_name_of (models.Region_ID r)) /\
  (forall r, (CloudType (SetRegion r c)).1 = models.Region_Type r) /\
  (CloudName (ClearAPICache c)).1 = "".
Proof.
  assert (Hget : forall A (g : BXConfigData -> A) cb,
             (read g (write cb c)).1 =
               g (set_raw (Some (structs_Map (cb (data (init c))))) (cb (data (init c)))))
    by (intros; apply read_write).
  assert (Hacc : forall cb, (HasAccount (write cb c)).1 =
             negb (String.eqb (models.Account_GUID (data_Account (cb (data (init c))))) "")).
  { intros cb. unfold HasAccount, Account. rewrite read_eq. cbn [fst].
    rewrite init_done, data_write by apply initOnce_write.
    by destruct (cb (data (init c))). }
  assert (Hname : forall cb, (CloudName (write cb c)).1 =
             cloud_name_of (data_RegionID (cb (data (init c))))).
  { intros cb. unfold CloudName, Region. rewrite read_eq. cbn [fst].
    rewrite init_done, data_write by apply initOnce_write.
    by destruct (cb (data (init c))). }
  split; [|split; [|split; [|split; [|split; [|split]]]]].
  - intros a. unfold SetAccount. rewrite Hacc. destruct (data (init c)). cbn.
    split.
    + intros Hb Heq. rewrite Heq in Hb. discriminate.
    + intros Hne. apply String.eqb_neq in Hne. by rewrite Hne.
  - intros g. unfold HasResourceGroup, SetResourceGroup. rewrite Hget.
    destruct (data (init c)). cbn. rewrite andb_true_iff, !negb_true_iff.
    by rewrite !String.eqb_neq.
  - unfold ClearSession. rewrite Hacc. by destruct (data (init c)).
  - unfold HasResourceGroup, ClearSession. rewrite Hget. by destruct (data (init c)).
  - intros r. unfold SetRegion. rewrite Hname. by destruct (data (init c)).
  - intros r. unfold CloudType, Region, SetRegion. rewrite read_eq. cbn [fst].
    rewrite init_done, data_write by apply initOnce_write.
    by destruct (data (init c)).
  - unfold ClearAPICache. rewrite Hname. by destruct (data (init c)).
Qed.

(** *** The stored subject id *)

Lemma typed_value_IAMID d : typed_value d "IAMID" = Some (JStr (data_IAMID d)).
Proof. destruct d. by rewrite typed_value_assoc. Qed.

(** X6: [IAMID] is read off the access token, and the stored field [IAMID]
    is written by no method: after any sequence of calls, a panic included,
    it is what the lazy load left. *)
Theorem stored_IAMID_is_never_written (EqualFold : string -> string -> bool)
    (ToLower : string -> string) (NewIAMTokenInfo : string -> IAMTokenInfo)
    (ops : list operation) c :
  (IAMID NewIAMTokenInfo c).1 =
    IAMTokenInfo_IAMID (NewIAMTokenInfo (data_IAMToken (data (init c)))) /\
  data_IAMID (data (state_of (run EqualFold ToLower NewIAMTokenInfo ops (init c))))
    = data_IAMID (data (init c)).
Proof.
  split; [reflexivity|].
  assert (Hexec : forall op c0, initOnce c0 = true ->
            data_IAMID (data (state_of (exec EqualFold ToLower NewIAMTokenInfo op c0)))
              = data_IAMID (data c0)).
  { intros op c0 Hc0. destruct op as [g|w|t]; cbn [exec state_of].
    - by rewrite run_getter_init, init_done.
    - pose proof (full_setter_frame ToLower w c0 "IAMID") as Hframe.
      rewrite !typed_value_IAMID, (init_done c0) in Hframe by done.
      assert (Hk : ~ In "IAMID" (assigned_keys w)).
      { destruct w; cbn; intuition discriminate. }
      specialize (Hframe Hk). by injection Hframe.
    - destruct t as [token|token]; cbn [run_token_setter];
        unfold SetIAMToken, SetIAMRefreshToken, writeRaw, raw_assign;
        rewrite (init_done c0) by done.
      + rewrite data_raw_set_IAMToken. destruct (data_raw (data c0)).
        * destruct (Save _ _). cbn [state_of data]. by destruct (data c0).
        * cbn [state_of data]. by destruct (data c0).
      + rewrite data_raw_set_IAMRefreshToken. destruct (data_raw (data c0)).
        * destruct (Save _ _). cbn [state_of data]. by destruct (data c0).
        * cbn [state_of data]. by destruct (data c0). }
  assert (Hrun : forall c0, initOnce c0 = true ->
            data_IAMID (data (state_of (run EqualFold ToLower NewIAMTokenInfo ops c0)))
              = data_IAMID (data c0)).
  { induction ops as [|op ops' IH]; intros c0 Hc0; cbn [run]; [done|].
    pose proof (Hexec op c0 Hc0) as Hop.
    pose proof (after_init_exec EqualFold ToLower NewIAMTokenInfo op c0) as [Hi _].
    destruct (exec EqualFold ToLower NewIAMTokenInfo op c0) as [c1|msg c1];
      cbn [state_of] in *; [|done].
    by rewrite IH. }
  apply Hrun, initOnce_init.
Qed.

(** *** A failed load and the setter that follows *)

(** X7: when the lazy load fails in a setter on a new repository, the
    handler gets the error first and the setter goes on: the persistor is
    called twice, [Load] then [Save], and the document saved has, in the
    fields the setter does not assign, what [Load] left in them. *)
Theorem load_failure_then_setter_saves (ToLower : string -> string) (p : P)
    (w : full_setter) (e : error) :
  (Load p NewBXConfigData).2 = Some e ->
  let c' := run_full_setter ToLower w (createBluemixConfigFromPersistor p) in
  calls c' = [LoadCall; SaveCall (DocumentData (data c'))] /\
  head (handled c') = Some e /\
  forall k, ~ In k (assigned_keys w) ->
            typed_value (data c') k = typed_value (Load p NewBXConfigData).1.2 k.
Proof.
  intros Hload c'. split; [|split].
  - unfold c'. destruct (run_full_setter_write ToLower w) as [cb ->].
    rewrite data_write, write_eq, init_fresh. reflexivity.
  - unfold c'. destruct (run_full_setter_write ToLower w) as [cb ->].
    rewrite write_eq, init_fresh. cbn [handled]. rewrite Hload.
    by destruct (Save _ _).2.
  - intros k Hk. unfold c'. rewrite full_setter_frame by done. by rewrite init_fresh.
Qed.

(** *** Looking up after registering or removing *)

Section LookupProofs.
Context (EqualFold : string -> string -> bool) (ToLower : string -> string).

Lemma lookup_repo_snoc name repos e :
  lookup_repo EqualFold name (repos ++ [e]) =
    if (lookup_repo EqualFold name repos).2 then lookup_repo EqualFold name repos
    else if EqualFold (models.PluginRepo_Name e) name then (e, true)
    else (models.PluginRepo_zero, false).
Proof.
  induction repos as [|x repos IH]; cbn [app lookup_repo].
  - by destruct (EqualFold (models.PluginRepo_Name e) name).
  - by destruct (EqualFold (models.PluginRepo_Name x) name).
Qed.

Lemma lookup_repo_skip name before repos :
  (forall x, In x before -> EqualFold (models.PluginRepo_Name x) name = false) ->
  lookup_repo EqualFold name (before ++ repos) = lookup_repo EqualFold name repos.
Proof.
  induction before as [|x before IH]; intros Hbefore; cbn [app lookup_repo]; [done|].
  rewrite (Hbefore x) by (by left). apply IH. intros y Hy. apply Hbefore. by right.
Qed.

Lemma PluginRepo_after_write name cb c :
  (PluginRepo EqualFold name (write cb c)).1 =
    lookup_repo EqualFold name (slice_items (data_PluginRepos (data (write cb c)))).
Proof.
  unfold PluginRepo, PluginRepos. rewrite read_eq. cbn [fst].
  by rewrite init_done by apply initOnce_write.
Qed.

(** X8: registering does not shadow: after [SetPluginRepo e], [PluginRepo
    name] returns what it returned before when that was a match, and
    otherwise [e] if its name matches, and the zero entry, not found, if
    not. *)
Theorem SetPluginRepo_keeps_first_match c (e : models.PluginRepo) (name : string) :
  (PluginRepo EqualFold name (SetPluginRepo e c)).1 =
    if (PluginRepo EqualFold name c).1.2 then (PluginRepo EqualFold name c).1
    else if EqualFold (models.PluginRepo_Name e) name then (e, true)
    else (models.PluginRepo_zero, false).
Proof.
  unfold SetPluginRepo at 1. rewrite PluginRepo_after_write.
  fold (SetPluginRepo e c). rewrite data_SetPluginRepo. cbn [slice_items].
  apply lookup_repo_snoc.
Qed.

(** X9: where the two comparisons agree on the entries of the list, after
    [UnSetPluginRepo name] removed the first match, [PluginRepo name] finds
    nothing if no later entry matches, and finds the next match if there is
    one. *)
Theorem UnSetPluginRepo_then_lookup c (name : string) (before after : list models.PluginRepo)
    (r : models.PluginRepo) :
  slice_items (data_PluginRepos (data (init c))) = before ++ r :: after ->
  (forall x, In x (before ++ r :: after) ->
             EqualFold (models.PluginRepo_Name x) name = true <->
             ToLower (models.PluginRepo_Name x) = ToLower name) ->
  ToLower (models.PluginRepo_Name r) = ToLower name ->
  (forall x, In x before -> ToLower (models.PluginRepo_Name x) <> ToLower name) ->
  let c' := UnSetPluginRepo ToLower name c in
  ((forall x, In x after -> ToLower (models.PluginRepo_Name x) <> ToLower name) ->
   (PluginRepo EqualFold name c').1 = (models.PluginRepo_zero, false)) /\
  (forall mid r2 rest,
      after = mid ++ r2 :: rest ->
      ToLower (models.PluginRepo_Name r2) = ToLower name ->
      (forall x, In x mid -> ToLower (models.PluginRepo_Name x) <> ToLower name) ->
      (PluginRepo EqualFold name c').1 = (r2, true)).
Proof.
  intros Hrepos Hagree Hr Hbefore c'.
  assert (Hno : forall l, (forall x, In x l -> In x (before ++ r :: after)) ->
                 (forall x, In x l -> ToLower (models.PluginRepo_Name x) <> ToLower name) ->
                 forall x, In x l -> EqualFold (models.PluginRepo_Name x) name = false).
  { intros l Hsub Hl x Hx. destruct (EqualFold (models.PluginRepo_Name x) name) eqn:HE; [|done].
    exfalso. apply (Hl x Hx). apply Hagree; [by apply Hsub|done]. }
  assert (Hleft : data_PluginRepos (data c') = Some (before ++ after)).
  { unfold c'. rewrite data_UnSetPluginRepo, Hrepos.
    rewrite index_repo_found by done.
    replace (Nat.eqb (length before) (length (before ++ r :: after))) with false
      by (symmetry; apply Nat.eqb_neq; rewrite length_app; simpl; lia).
    cbn [negb]. rewrite take_app_length.
    rewrite (cons_middle r before after), app_assoc.
    by rewrite drop_app_length' by (rewrite length_app; simpl; lia). }
  assert (Hget : (PluginRepo EqualFold name c').1 = lookup_repo EqualFold name after).
  { unfold c', UnSetPluginRepo at 1. rewrite PluginRepo_after_write.
    fold (UnSetPluginRepo ToLower name c). fold c'. rewrite Hleft. cbn [slice_items].
    apply lookup_repo_skip. apply Hno; [|done].
    intros x Hx. apply in_or_app. by left. }
  rewrite Hget. split.
  - intros Hafter. apply lookup_repo_absent. apply Hno; [|done].
    intros x Hx. apply in_or_app. right. by right.
  - intros mid r2 rest -> Hr2 Hmid. apply lookup_repo_found.
    + apply Hagree; [|done]. apply in_or_app. right. right. apply in_or_app. right. by left.
    + apply Hno; [|done]. intros x Hx. apply in_or_app. right. right.
      apply in_or_app. by left.
Qed.

End LookupProofs.

End FurtherProofs.

(** ** Decoding, again *)

Section DecodingProofs.
Context (EqualFold : string -> string -> bool).

Lemma find_field_In {T : Type} (fields : list (string * decoder T)) key f dec :
  find_field EqualFold fields key f = Some dec ->
  f = Some dec \/ exists name, In (name, dec) fields.
Proof.
  revert f. induction fields as [|[name d] fields IH]; intros f Hfind; cbn in Hfind.
  - by left.
  - destruct (String.eqb name key).
    + injection Hfind as <-. right. exists name. by left.
    + destruct (IH _ Hfind) as [Hf|[n Hn]].
      * destruct f as [d0|]; [by left|].
        destruct (EqualFold name key); [|discriminate].
        injection Hf as <-. right. exists name. by left.
      * right. exists n. by right.
Qed.

Lemma decode_members_keeps {T A : Type} (view : T -> A)
    (fields : list (string * decoder T)) members t e :
  (forall name dec, In (name, dec) fields -> forall j x, view (dec j x).1 = view x) ->
  view (decode_members EqualFold fields members t e).1 = view t.
Proof.
  intros Hfields. revert t e.
  induction members as [|[key v] rest IH]; intros t e; cbn [decode_members]; [done|].
  destruct (find_field EqualFold fields key None) as [dec|] eqn:Hfind; [|apply IH].
  destruct (find_field_In fields key None dec Hfind) as [Hf|[name Hin]]; [discriminate|].
  specialize (Hfields name dec Hin v t).
  destruct (dec v t) as [t' e']. cbn [fst] in Hfields. by rewrite IH.
Qed.

Lemma BXConfigData_fields_keep_raw name dec :
  In (name, dec) (BXConfigData_fields EqualFold) ->
  forall j d, data_raw (dec j d).1 = data_raw d.
Proof.
  intros Hin j d. unfold BXConfigData_fields in Hin. cbn [In] in Hin.
  repeat (destruct Hin as [Hin|Hin];
          [injection Hin as _ <-; unfold field_of;
           match goal with |- context [?f j (?g d)] => destruct (f j (g d)) end;
           by destruct d|]).
  destruct Hin.
Qed.

Lemma json_Unmarshal_data_keeps_raw bytes d :
  data_raw (json_Unmarshal_data EqualFold bytes d).1 = data_raw d.
Proof.
  unfold json_Unmarshal_data, decode_struct. destruct bytes; try done.
  apply decode_members_keeps. apply BXConfigData_fields_keep_raw.
Qed.

(** X10: when [Unmarshal] returns an error, the raw map of the document is
    the one it had before the call. *)
Theorem Unmarshal_error_keeps_raw (bytes : json) (d d' : BXConfigData) (e : error) :
  Unmarshal EqualFold bytes d = (d', Some e) -> data_raw d' = data_raw d.
Proof.
  unfold Unmarshal. intros Hun.
  pose proof (json_Unmarshal_data_keeps_raw bytes d) as Hraw.
  destruct (json_Unmarshal_data EqualFold bytes d) as [d1 [e1|]]; cbn [fst] in Hraw.
  - by injection Hun as <- _.
  - destruct (json_Unmarshal_raw bytes) as [raw [e2|]]; [|discriminate].
    by injection Hun as <- _.
Qed.









End DecodingProofs.

(** ** Package [downloader] *)

Lemma Split_app s sep t :
  Split (s ++ String sep t)%string sep = Split s sep ++ Split t sep.
Proof.
  induction s as [|c s IH]; simpl.
  - by rewrite Ascii.eqb_refl.
  - destruct (Ascii.eqb c sep); [by rewrite IH|].
    rewrite IH. pose proof (Split_nonempty s sep).
    by destruct (Split s sep).
Qed.

Lemma Split_pieces_no_sep s sep piece :
  In piece (Split s sep) -> count_byte sep piece = 0%nat.
Proof.
  revert piece. induction s as [|c s IH]; intros piece; cbn [Split].
  - intros [<-|[]]. reflexivity.
  - destruct (Ascii.eqb c sep) eqn:Hc.
    + intros [<-|Hin]; [reflexivity|by apply IH].
    + pose proof (Split_nonempty s sep).
      destruct (Split s sep) as [|p ps]; [done|].
      intros [<-|Hin].
      * cbn [count_byte]. rewrite Hc. apply IH. by left.
      * apply IH. by right.
Qed.

Lemma last_In {A} (l : list A) d : l <> [] -> In (List.last l d) l.
Proof.
  induction l as [|x [|y l] IH]; intros Hne; [done|by left|].
  right. apply IH. discriminate.
Qed.

Lemma last_app_nonempty {A} (l1 l2 : list A) d :
  l2 <> [] -> List.last (l1 ++ l2) d = List.last l2 d.
Proof.
  intros Hne. induction l1 as [|x l1 IH]; [done|].
  cbn [app]. destruct (l1 ++ l2) eqn:Happ; [|by rewrite <- IH].
  apply app_eq_nil in Happ as [_ ->]. done.
Qed.

Lemma length_TrimLeft s cutset : (String.length (TrimLeft s cutset) <= String.length s)%nat.
Proof.
  induction s as [|b s IH]; cbn [TrimLeft]; [done|].
  destruct (contains_byte cutset b); cbn [String.length]; lia.
Qed.

Lemma length_TrimRight s cutset : (String.length (TrimRight s cutset) <= String.length s)%nat.
Proof.
  induction s as [|b s IH]; cbn [TrimRight]; [done|].
  destruct (TrimRight s cutset); [destruct (contains_byte cutset b)|];
    cbn [String.length] in *; lia.
Qed.

Lemma TrimLeft_drop b s cutset :
  contains_byte cutset b = true -> TrimLeft (String b s) cutset = TrimLeft s cutset.
Proof. intros Hb. cbn [TrimLeft]. by rewrite Hb. Qed.

Lemma TrimLeft_same s cutset :
  (forall b, first_byte s = Some b -> contains_byte cutset b = false) ->
  TrimLeft s cutset = s.
Proof.
  destruct s as [|b s]; [done|]. intros Hb. cbn [TrimLeft].
  by rewrite (Hb b).
Qed.

Lemma TrimRight_same s cutset :
  (forall b, last_byte s = Some b -> contains_byte cutset b = false) ->
  TrimRight s cutset = s.
Proof.
  induction s as [|b s IH]; [done|]. intros Hb. cbn [TrimRight].
  destruct s as [|b' s].
  - cbn [TrimRight]. by rewrite (Hb b).
  - rewrite IH by (intros x Hx; by apply Hb). done.
Qed.

Lemma TrimRight_snoc s cutset b :
  contains_byte cutset b = true ->
  TrimRight (s ++ String b "")%string cutset = TrimRight s cutset.
Proof.
  intros Hb. induction s as [|c s IH]; simpl.
  - by rewrite Hb.
  - by rewrite IH.
Qed.

Lemma last_byte_cons b s : s <> "" -> last_byte (String b s) = last_byte s.
Proof. by destruct s. Qed.

Section DownloaderProofs.
Context (TrimSpace : string -> string) (Clean : string -> string).

Lemma file_name_of_fields_found before field after :
  (forall x, In x before -> HasPrefix (TrimSpace x) "filename=" = false) ->
  HasPrefix (TrimSpace field) "filename=" = true ->
  file_name_of_fields TrimSpace (before ++ field :: after) =
    Trim (TrimLeft (TrimSpace field) "filename=") (String quote "").
Proof.
  intros Hbefore Hfield. induction before as [|x before IH]; cbn [app file_name_of_fields].
  - by rewrite Hfield.
  - rewrite (Hbefore x) by (by left). apply IH. intros y Hy. apply Hbefore. by right.
Qed.

Lemma file_name_of_fields_absent fields :
  (forall x, In x fields -> HasPrefix (TrimSpace x) "filename=" = false) ->
  file_name_of_fields TrimSpace fields = "".
Proof.
  induction fields as [|x fields IH]; intros Hall; cbn [file_name_of_fields]; [done|].
  rewrite (Hall x) by (by left). apply IH. intros y Hy. apply Hall. by right.
Qed.

Lemma Trim_quoted name :
  first_byte name <> Some quote -> last_byte name <> Some quote ->
  Trim (String quote (name ++ String quote "")) (String quote "") = name.
Proof.
  intros Hfirst Hlast. unfold Trim.
  change (String quote (name ++ String quote ""))
    with ((String quote name) ++ String quote "")%string.
  rewrite TrimRight_snoc by reflexivity.
  destruct name as [|b name]; [reflexivity|].
  rewrite TrimRight_same.
  - rewrite TrimLeft_drop by reflexivity.
    apply TrimLeft_same. intros x [= <-]. cbn [contains_byte]. rewrite orb_false_r.
    apply Ascii.eqb_neq. intros Heq. apply Hfirst. cbn. by rewrite Heq.
  - intros x Hx. rewrite last_byte_cons in Hx by done. cbn [contains_byte].
    rewrite orb_false_r. apply Ascii.eqb_neq. intros Heq. subst x. by apply Hlast.
Qed.

Lemma Trim_same name :
  first_byte name <> Some quote -> last_byte name <> Some quote ->
  Trim name (String quote "") = name.
Proof.
  intros Hfirst Hlast. unfold Trim. rewrite TrimRight_same.
  - apply TrimLeft_same. intros x Hx. cbn [contains_byte]. rewrite orb_false_r.
    apply Ascii.eqb_neq. intros Heq. subst x. by apply Hfirst.
  - intros x Hx. cbn [contains_byte]. rewrite orb_false_r.
    apply Ascii.eqb_neq. intros Heq. subst x. by apply Hlast.
Qed.

(** X12: the first field of the header that starts with [filename=] gives
    the name: a name between double quotes is returned as it is, and so is
    a name without quotes whose first byte is not one of the bytes of
    [filename=] (the name having no double quote at either end). *)
Theorem getFileNameFromHeader_intact (header : string) (before after : list string)
    (field name : string) :
  header <> "" ->
  Split header ";" = before ++ field :: after ->
  (forall x, In x before -> HasPrefix (TrimSpace x) "filename=" = false) ->
  first_byte name <> Some quote ->
  last_byte name <> Some quote ->
  (TrimSpace field = ("filename=" ++ String quote (name ++ String quote ""))%string ->
   getFileNameFromHeader TrimSpace header = name) /\
  (TrimSpace field = ("filename=" ++ name)%string ->
   (forall b, first_byte name = Some b -> contains_byte "filename=" b = false) ->
   getFileNameFromHeader TrimSpace header = name).
Proof.
  intros Hne Hsplit Hbefore Hfirst Hlast.
  apply String.eqb_neq in Hne. unfold getFileNameFromHeader. rewrite Hne, Hsplit.
  split.
  - intros Hfield. rewrite file_name_of_fields_found by (by rewrite ?Hfield).
    rewrite Hfield.
    change (TrimLeft ("filename=" ++ String quote (name ++ String quote "")) "filename=")
      with (String quote (name ++ String quote "")).
    by apply Trim_quoted.
  - intros Hfield Hcut. rewrite file_name_of_fields_found by (by rewrite ?Hfield).
    rewrite Hfield.
    change (TrimLeft ("filename=" ++ name) "filename=") with (TrimLeft name "filename=").
    rewrite TrimLeft_same by done. by apply Trim_same.
Qed.

(** X13: a name without quotes whose first byte is one of the bytes of
    [filename=] is not returned whole: [strings.TrimLeft] takes its second
    argument for a set of bytes, and the result is shorter than the
    name. *)
Theorem getFileNameFromHeader_truncated (header : string) (before after : list string)
    (field name : string) (b : ascii) :
  header <> "" ->
  Split header ";" = before ++ field :: after ->
  (forall x, In x before -> HasPrefix (TrimSpace x) "filename=" = false) ->
  TrimSpace field = ("filename=" ++ name)%string ->
  first_byte name = Some b ->
  contains_byte "filename=" b = true ->
  (String.length (getFileNameFromHeader TrimSpace header) < String.length name)%nat /\
  getFileNameFromHeader TrimSpace header <> name.
Proof.
  intros Hne Hsplit Hbefore Hfield Hfirst Hcut.
  assert (Hlen : (String.length (getFileNameFromHeader TrimSpace header)
                  < String.length name)%nat).
  { apply String.eqb_neq in Hne. unfold getFileNameFromHeader. rewrite Hne, Hsplit.
    rewrite file_name_of_fields_found by (by rewrite ?Hfield).
    rewrite Hfield.
    change (TrimLeft ("filename=" ++ name) "filename=") with (TrimLeft name "filename=").
    destruct name as [|b' rest]; [discriminate|]. injection Hfirst as ->.
    rewrite TrimLeft_drop by done. unfold Trim.
    pose proof (length_TrimLeft (TrimRight (TrimLeft rest "filename=") (String quote ""))
                  (String quote "")).
    pose proof (length_TrimRight (TrimLeft rest "filename=") (String quote "")).
    pose proof (length_TrimLeft rest "filename=").
    cbn [String.length]. lia. }
  split; [exact Hlen|]. intros Heq. rewrite Heq in Hlen. lia.
Qed.

(** X14: the name taken from the URL has no slash; it is what follows the
    last slash of the cleaned path, and the cleaned path itself when that
    has no slash and is not the dot. *)
Theorem getFileNameFromUrl_last_segment (urlPath : string) :
  count_byte "/" (getFileNameFromUrl Clean urlPath) = 0%nat /\
  (forall dir name,
      Clean urlPath = (dir ++ "/" ++ name)%string ->
      count_byte "/" name = 0%nat ->
      getFileNameFromUrl Clean urlPath = name) /\
  (count_byte "/" (Clean urlPath) = 0%nat ->
   Clean urlPath <> "." ->
   getFileNameFromUrl Clean urlPath = Clean urlPath).
Proof.
  unfold getFileNameFromUrl. cbn zeta.
  pose proof (Split_nonempty (Clean urlPath) "/") as Hne.
  assert (Hlen : Nat.eqb (length (Split (Clean urlPath) "/")) 0 = false).
  { apply Nat.eqb_neq. by destruct (Split (Clean urlPath) "/"). }
  rewrite Hlen. split; [|split].
  - destruct (String.eqb (Clean urlPath) "."); [reflexivity|].
    apply (Split_pieces_no_sep (Clean urlPath) "/"). by apply last_In.
  - intros dir name Hclean Hname.
    assert (Hdot : String.eqb (Clean urlPath) "." = false).
    { apply String.eqb_neq. rewrite Hclean. destruct dir as [|a [|a' dir]]; discriminate. }
    rewrite Hdot, Hclean.
    change ("/" ++ name)%string with (String "/" name).
    rewrite Split_app, last_app_nonempty by apply Split_nonempty.
    by rewrite Split_last.
  - intros Hno Hdot. apply String.eqb_neq in Hdot. rewrite Hdot.
    by rewrite Split_last.
Qed.

(** X15: the output name is never empty; it is the name of the header when
    that is not empty, and otherwise (no header, or no field that starts
    with [filename=]) the name of the URL, or [index.html] when that is
    empty too. *)
Theorem determinOutputName_never_empty (contentDisposition urlPath : string) :
  determinOutputName TrimSpace Clean contentDisposition urlPath <> "" /\
  (getFileNameFromHeader TrimSpace contentDisposition <> "" ->
   determinOutputName TrimSpace Clean contentDisposition urlPath
     = getFileNameFromHeader TrimSpace contentDisposition) /\
  (contentDisposition = "" \/
   (forall field, In field (Split contentDisposition ";") ->
                  HasPrefix (TrimSpace field) "filename=" = false) ->
   determinOutputName TrimSpace Clean contentDisposition urlPath
     = if String.eqb (getFileNameFromUrl Clean urlPath) "" then "index.html"
       else getFileNameFromUrl Clean urlPath).
Proof.
  unfold determinOutputName. cbn zeta. split; [|split].
  - destruct (String.eqb (getFileNameFromHeader TrimSpace contentDisposition) "") eqn:Hh.
    + destruct (String.eqb (getFileNameFromUrl Clean urlPath) "") eqn:Hu; [done|].
      by apply String.eqb_neq.
    + rewrite Hh. by apply String.eqb_neq.
  - intros Hh. apply String.eqb_neq in Hh. by rewrite !Hh.
  - intros Hno.
    assert (Hh : getFileNameFromHeader TrimSpace contentDisposition = "").
    { destruct Hno as [->|Hno]; [reflexivity|].
      unfold getFileNameFromHeader. destruct (String.eqb contentDisposition ""); [done|].
      by apply file_name_of_fields_absent. }
    by rewrite Hh.
Qed.

End DownloaderProofs.

(** ** The further theorems at work *)

Lemma setters_frame_witness :
  typed_value (data (SetLocale "fr_FR" Sample.repository)) "Region"
    = Some (JStr "us-south") /\
  exists c', SetIAMToken "t" Sample.repository = Returned c' /\
             raw_value (data c') "FutureSetting" = Some (JNum 7).
Proof.
  destruct (setters_frame Double.ToLower Sample.repository "Region") as [Hfull _].
  destruct (setters_frame Double.ToLower Sample.repository "FutureSetting") as [_ Htoken].
  split.
  - assert (Hk : ~ In "Region" (assigned_keys (DoSetLocale "fr_FR"))).
    { cbn. intros [Heq|[]]. discriminate Heq. }
    pose proof (Hfull (DoSetLocale "fr_FR") Hk) as Hframe.
    cbn [run_full_setter] in Hframe. rewrite Hframe. vm_compute. reflexivity.
  - assert (Hset : SetIAMToken "t" Sample.repository
                   = Returned (state_of (SetIAMToken "t" Sample.repository)))
      by (vm_compute; reflexivity).
    eexists. split; [exact Hset|].
    destruct (Htoken (DoSetIAMToken "t") _ Hset) as [_ Hraw]; [discriminate|].
    rewrite Hraw. vm_compute. reflexivity.
Defined.

Lemma raw_in_step_invariant_witness :
  let c := SetLocale "fr_FR" Sample.repository in
  initOnce c = true /\
  in_step (data c) /\
  exists c',
    run Double.EqualFold Double.ToLower Double.NewIAMTokenInfo Cases.calls_made c
      = Returned c' /\
    in_step (data c').
Proof.
  intros c.
  destruct (raw_in_step_invariant (P:=Double.Memory) Double.EqualFold Double.ToLower
              Double.NewIAMTokenInfo) as [Hfull Hseq].
  assert (Hinit : initOnce c = true) by reflexivity.
  assert (Hstep : in_step (data c)) by apply (Hfull (DoSetLocale "fr_FR")).
  split; [exact Hinit|]. split; [exact Hstep|].
  assert (Hrun : run Double.EqualFold Double.ToLower Double.NewIAMTokenInfo
                     Cases.calls_made c
                 = Returned (state_of (run Double.EqualFold Double.ToLower
                                           Double.NewIAMTokenInfo Cases.calls_made c)))
    by (vm_compute; reflexivity).
  eexists. split; [exact Hrun|].
  exact (Hseq Cases.calls_made c _ Hinit Hstep Hrun).
Defined.

Lemma one_save_per_setter_witness :
  exists c',
    run Double.EqualFold Double.ToLower Double.NewIAMTokenInfo Cases.calls_made
        Sample.repository = Returned c' /\
    saves (calls c') = 2%nat.
Proof.
  assert (Hrun : run Double.EqualFold Double.ToLower Double.NewIAMTokenInfo
                     Cases.calls_made Sample.repository
                 = Returned (state_of (run Double.EqualFold Double.ToLower
                                           Double.NewIAMTokenInfo Cases.calls_made
                                           Sample.repository)))
    by (vm_compute; reflexivity).
  eexists. split; [exact Hrun|].
  destruct (one_save_per_setter Double.EqualFold Double.ToLower Double.NewIAMTokenInfo
              Cases.calls_made Sample.repository _ Hrun) as [Hsaves _].
  exact Hsaves.
Defined.

Lemma token_setter_nil_raw_witness :
  data_raw (data (init Cases.null_repository)) = None /\
  exists c',
    SetIAMToken "t" Cases.null_repository
      = Panicked "assignment to entry in nil map" c' /\
    calls c' = [LoadCall].
Proof.
  assert (Hnil : data_raw (data (init Cases.null_repository)) = None) by reflexivity.
  split; [exact Hnil|].
  destruct (token_setter_nil_raw (DoSetIAMToken "t") Cases.null_repository) as [Hpanic _].
  destruct (Hpanic Hnil) as (c' & Hset & _ & _ & Hcalls & _).
  exists c'. split; [exact Hset|]. rewrite Hcalls. reflexivity.
Defined.

Lemma load_failure_then_setter_saves_witness :
  (Load Sample.unreadable NewBXConfigData).2 = Some (PersistorError "permission denied") /\
  length (calls (SetLocale "fr_FR" (createBluemixConfigFromPersistor Sample.unreadable)))
    = 2%nat.
Proof.
  assert (Hload : (Load Sample.unreadable NewBXConfigData).2
                  = Some (PersistorError "permission denied")) by reflexivity.
  split; [exact Hload|].
  destruct (load_failure_then_setter_saves Double.ToLower Sample.unreadable
              (DoSetLocale "fr_FR") _ Hload) as [Hcalls _].
  cbn [run_full_setter] in Hcalls. rewrite Hcalls. reflexivity.
Defined.

Lemma UnSetPluginRepo_then_lookup_witness :
  slice_items (data_PluginRepos (data (init Cases.two_foos))) = [Sample.foo; Sample.FOO] /\
  (PluginRepo Double.EqualFold "Foo"
     (UnSetPluginRepo Double.ToLower "Foo" Cases.two_foos)).1 = (Sample.FOO, true).
Proof.
  assert (Hrepos : slice_items (data_PluginRepos (data (init Cases.two_foos)))
                   = [] ++ Sample.foo :: [Sample.FOO]) by (vm_compute; reflexivity).
  split; [exact Hrepos|].
  assert (Hagree : forall x, In x ([] ++ Sample.foo :: [Sample.FOO]) ->
            Double.EqualFold (models.PluginRepo_Name x) "Foo" = true <->
            Double.ToLower (models.PluginRepo_Name x) = Double.ToLower "Foo").
  { intros x [<-|[<-|[]]]; split; reflexivity. }
  destruct (UnSetPluginRepo_then_lookup Double.EqualFold Double.ToLower Cases.two_foos
              "Foo" [] [Sample.FOO] Sample.foo Hrepos Hagree eq_refl
              (fun x (Hx : In x []) => match Hx with end)) as [_ Hnext].
  apply (Hnext [] Sample.FOO []); [reflexivity|reflexivity|intros x []].
Defined.

Lemma Unmarshal_error_keeps_raw_witness :
  (Unmarshal Double.EqualFold Cases.bad_timeout NewBXConfigData).2
    = Some (UnmarshalTypeError "string" "int") /\
  data_Locale (Unmarshal Double.EqualFold Cases.bad_timeout NewBXConfigData).1 = "de_DE" /\
  data_raw (Unmarshal Double.EqualFold Cases.bad_timeout NewBXConfigData).1 = Some ∅.
Proof.
  split; [reflexivity|]. split; [reflexivity|].
  apply (Unmarshal_error_keeps_raw Double.EqualFold Cases.bad_timeout NewBXConfigData
           (Unmarshal Double.EqualFold Cases.bad_timeout NewBXConfigData).1
           (UnmarshalTypeError "string" "int")).
  reflexivity.
Defined.



Lemma getFileNameFromHeader_intact_witness :
  Split Cases.quoted_header ";"
    = ["attachment"] ++ (" filename=" ++ String quote ("email.txt" ++ String quote ""))%string
                     :: [] /\
  getFileNameFromHeader Plain.TrimSpace Cases.quoted_header = "email.txt".
Proof.
  assert (Hsplit : Split Cases.quoted_header ";"
            = ["attachment"]
              ++ (" filename=" ++ String quote ("email.txt" ++ String quote ""))%string
              :: []) by reflexivity.
  split; [exact Hsplit|].
  assert (Hbefore : forall x, In x ["attachment"] ->
            HasPrefix (Plain.TrimSpace x) "filename=" = false).
  { intros x [<-|[]]. reflexivity. }
  assert (Hne : Cases.quoted_header <> "") by discriminate.
  assert (Hfirst : first_byte "email.txt" <> Some quote) by discriminate.
  assert (Hlast : last_byte "email.txt" <> Some quote) by discriminate.
  destruct (getFileNameFromHeader_intact Plain.TrimSpace Cases.quoted_header
              ["attachment"] []
              (" filename=" ++ String quote ("email.txt" ++ String quote ""))%string
              "email.txt" Hne Hsplit Hbefore Hfirst Hlast) as [Hquoted _].
  exact (Hquoted eq_refl).
Defined.

Lemma getFileNameFromHeader_truncated_witness :
  Split Cases.unquoted_header ";" = ["attachment"] ++ " filename=email.txt" :: [] /\
  getFileNameFromHeader Plain.TrimSpace Cases.unquoted_header <> "email.txt".
Proof.
  assert (Hsplit : Split Cases.unquoted_header ";"
                   = ["attachment"] ++ " filename=email.txt" :: []) by reflexivity.
  split; [exact Hsplit|].
  assert (Hbefore : forall x, In x ["attachment"] ->
            HasPrefix (Plain.TrimSpace x) "filename=" = false).
  { intros x [<-|[]]. reflexivity. }
  assert (Hne : Cases.unquoted_header <> "") by discriminate.
  destruct (getFileNameFromHeader_truncated Plain.TrimSpace Cases.unquoted_header
              ["attachment"] [] " filename=email.txt" "email.txt" "e"
              Hne Hsplit Hbefore eq_refl eq_refl eq_refl) as [_ Hdiffers].
  exact Hdiffers.
Defined.

Lemma getFileNameFromUrl_last_segment_witness :
  Plain.Clean "/files/../files/tool.zip" = ("/files" ++ "/" ++ "tool.zip")%string /\
  getFileNameFromUrl Plain.Clean "/files/../files/tool.zip" = "tool.zip".
Proof.
  assert (Hclean : Plain.Clean "/files/../files/tool.zip"
                   = ("/files" ++ "/" ++ "tool.zip")%string) by reflexivity.
  split; [exact Hclean|].
  destruct (getFileNameFromUrl_last_segment Plain.Clean "/files/../files/tool.zip")
    as (_ & Hlast & _).
  apply (Hlast "/files" "tool.zip" Hclean). reflexivity.
Defined.

Lemma determinOutputName_never_empty_witness :
  determinOutputName Plain.TrimSpace Plain.Clean "inline" "/" = "index.html".
Proof.
  destruct (determinOutputName_never_empty Plain.TrimSpace Plain.Clean "inline" "/")
    as (_ & _ & Hfallback).
  rewrite Hfallback; [reflexivity|].
  right. intros field [<-|[]]. reflexivity.
Defined.
